(** * Jira MCP server (main.go): a shallow embedding and its properties

    The adapter turns three tool calls (create_issue, update_issue,
    search_issues) into one outbound HTTP request each and serves a constant
    capability resource.  Go strings are byte strings ([string]); Go maps are
    finite maps ([gmap]); a Go [error] is represented by its message; the
    network and the syntax layer of encoding/json are the environment [Env].
    An operation that talks to the network returns, next to its Go result,
    the list of requests it handed to the HTTP client; [main] returns the
    calls it made to the logger and to the server library, and how it
    ended. *)

From Stdlib Require Import ZArith String Ascii List Bool Lia.
From stdpp Require Import base option list gmap strings pretty sorting.

#[local] Set Warnings "-register-all".
#[local] Open Scope Z_scope.

(** ** Results and errors *)

(** A Go [error], identified with the text of [err.Error()]. *)
Abbreviation error := string (only parsing).

(** The pair [(T, error)] a Go function returns, with exactly one side set. *)
Inductive result (A : Type) : Type :=
  | Ok (a : A)
  | Err (err : error).
Arguments Ok {A} a.
Arguments Err {A} err.

Definition is_ok {A} (r : result A) : bool :=
  match r with Ok _ => true | Err _ => false end.

(** ** Package strings *)

Module strings.

(** [strings.HasPrefix]. *)
Fixpoint HasPrefix (s prefix : string) {struct prefix} : bool :=
  match prefix, s with
  | EmptyString, _ => true
  | String p prefix', String c s' => Ascii.eqb c p && HasPrefix s' prefix'
  | String _ _, EmptyString => false
  end.

(** [strings.Index]: the index of the first instance of [substr] in [s],
    or -1 if [substr] is not present. *)
Fixpoint Index (s substr : string) : Z :=
  if HasPrefix s substr then 0
  else match s with
       | EmptyString => -1
       | String _ s' =>
           let i := Index s' substr in
           if i <? 0 then -1 else i + 1
       end.

(** [strings.Contains]: [Index(s, substr) >= 0]. *)
Definition Contains (s substr : string) : bool := 0 <=? Index s substr.

Definition byte (c : ascii) : Z := Z.of_N (N_of_ascii c).

(** The two scans at the top of [strings.ToLower]. *)
Fixpoint isASCII (s : string) : bool :=
  match s with
  | EmptyString => true
  | String c s' => (byte c <? 128) && isASCII s'
  end.

Definition isUpper (c : ascii) : bool := (65 <=? byte c) && (byte c <=? 90).

Fixpoint hasUpper (s : string) : bool :=
  match s with
  | EmptyString => false
  | String c s' => isUpper c || hasUpper s'
  end.

(** [c += 'a' - 'A'] on the bytes ['A' .. 'Z']. *)
Definition lowerByte (c : ascii) : ascii :=
  if isUpper c then ascii_of_N (Z.to_N (byte c + 32)) else c.

Fixpoint lowerASCII (s : string) : string :=
  match s with
  | EmptyString => EmptyString
  | String c s' => String (lowerByte c) (lowerASCII s')
  end.

(** [strings.ToLower].  The ASCII-only path is written out; on a string
    with a byte >= 0x80 the library returns [Map(unicode.ToLower, s)], which
    needs the Unicode case tables and is taken from [mapLower]. *)
Definition ToLower (mapLower : string → string) (s : string) : string :=
  if isASCII s then
    if hasUpper s then lowerASCII s else s
  else mapLower s.

End strings.

(** ** Package encoding/base64 (StdEncoding, padded) *)

Module base64.

Definition encodeStd : string :=
  "ABCDEFGHIJKLMNOPQRSTUVWXYZabcdefghijklmnopqrstuvwxyz0123456789+/".

Definition padChar : ascii := "="%char.

(** [enc.encode[v & 0x3F]] *)
Definition encode (v : Z) : ascii :=
  match String.get (Z.to_nat (Z.land v 63)) encodeStd with
  | Some c => c
  | None => padChar
  end.

Fixpoint EncodeToString (src : string) : string :=
  match src with
  | EmptyString => EmptyString
  | String a EmptyString =>
      let val := Z.shiftl (strings.byte a) 16 in
      String (encode (Z.shiftr val 18)) (String (encode (Z.shiftr val 12))
        (String padChar (String padChar EmptyString)))
  | String a (String b EmptyString) =>
      let val := Z.lor (Z.shiftl (strings.byte a) 16) (Z.shiftl (strings.byte b) 8) in
      String (encode (Z.shiftr val 18)) (String (encode (Z.shiftr val 12))
        (String (encode (Z.shiftr val 6)) (String padChar EmptyString)))
  | String a (String b (String c src')) =>
      let val := Z.lor (Z.lor (Z.shiftl (strings.byte a) 16) (Z.shiftl (strings.byte b) 8))
                   (strings.byte c) in
      String (encode (Z.shiftr val 18)) (String (encode (Z.shiftr val 12))
        (String (encode (Z.shiftr val 6)) (String (encode val) (EncodeToString src'))))
  end.

End base64.

(** ** Package encoding/json *)

(** A JSON document as the decoder's scanner delivers it: object members in
    document order, repeated names included; a number by its literal. *)
Inductive json : Type :=
  | JNull
  | JBool (b : bool)
  | JNum (lit : string)
  | JStr (s : string)
  | JArr (elems : list json)
  | JObj (members : list (string * json)).

(** The Go values ([interface{}]) this program hands to [json.Marshal]:
    strings, slices, and maps with string keys. *)
Inductive value : Type :=
  | VString (s : string)
  | VSlice (l : list value)
  | VMap (m : gmap string value).

Module json_.

(** Map keys are written in sorted (byte-wise) order. *)
Fixpoint insertMember (kv : string * json) (l : list (string * json))
  : list (string * json) :=
  match l with
  | [] => [kv]
  | x :: l' => if String.leb (fst kv) (fst x) then kv :: l else x :: insertMember kv l'
  end.

Definition sortMembers (l : list (string * json)) : list (string * json) :=
  foldr insertMember [] l.

(** The JSON document [json.Marshal] writes for a value. *)
Fixpoint toJSON (v : value) : json :=
  match v with
  | VString s => JStr s
  | VSlice l => JArr (map toJSON l)
  | VMap m => JObj (sortMembers (map_to_list (toJSON <$> m)))
  end.

(** Name folding of struct-field matching ([foldName]): ASCII letters to
    upper case, and the two runes that fold to an ASCII letter, U+212A
    KELVIN SIGN (E2 84 AA) to K and U+017F LONG S (C5 BF) to S.  Every other
    rune folds to a rune outside ASCII; its bytes are kept, which decides
    equality with the fold of an ASCII field name the same way. *)
Definition upperByte (c : ascii) : ascii :=
  if (97 <=? strings.byte c) && (strings.byte c <=? 122)
  then ascii_of_N (Z.to_N (strings.byte c - 32)) else c.

Fixpoint foldName (s : string) : string :=
  match s with
  | EmptyString => EmptyString
  | String c s' =>
      match strings.byte c, s' with
      | 226, String c1 (String c2 s'') =>
          if (strings.byte c1 =? 132) && (strings.byte c2 =? 170)
          then String "K" (foldName s'')
          else String c (foldName s')
      | 197, String c1 s'' =>
          if strings.byte c1 =? 191
          then String "S" (foldName s'')
          else String c (foldName s')
      | _, _ => String (upperByte c) (foldName s')
      end
  end.

(** Does the member name [key] select the struct field tagged [name]?  An
    exact match, else a match of the folded names. *)
Definition matchField (name key : string) : bool :=
  String.eqb key name || String.eqb (foldName key) (foldName name).

End json_.

(** ** Package net/http *)

Module http.

Record Request : Type := {
  Method : string;
  URL : string;
  Header : gmap string string;
  Body : option string
}.

Record Response : Type := {
  StatusCode : Z;
  RespBody : string
}.

Record Client : Type := { Timeout : Z }.

Definition StatusOK : Z := 200.
Definition StatusCreated : Z := 201.
Definition StatusNoContent : Z := 204.

(** [req.Header.Set(key, value)], for keys already in canonical form. *)
Definition HeaderSet (req : Request) (key val : string) : Request :=
  {| Method := Method req; URL := URL req;
     Header := <[key := val]> (Header req); Body := Body req |}.

Definition basicAuth (username password : string) : string :=
  base64.EncodeToString (username +:+ ":" +:+ password).

(** [req.SetBasicAuth(username, password)] *)
Definition SetBasicAuth (req : Request) (username password : string) : Request :=
  HeaderSet req "Authorization" ("Basic " +:+ basicAuth username password).

End http.

(** ** The environment

    What the adapter does not decide itself: the Unicode branch of
    [strings.ToLower], the URL and method check of [http.NewRequest], the
    network round trip, and the syntax layer and error texts of
    encoding/json. *)
Record Env : Type := {
  (** [strings.Map(unicode.ToLower, s)] *)
  mapLower : string → string;
  (** the error of [http.NewRequest(method, url, _)], if any *)
  newRequestError : string → string → option error;
  (** [client.Do(req)] for a client with the given timeout *)
  roundTrip : Z → http.Request → result http.Response;
  (** the bytes encoding/json writes for a document *)
  writeJSON : json → string;
  (** the first JSON value of a body, or the scanner's error *)
  readJSON : string → result json;
  (** does [strconv.ParseFloat(lit, 64)] accept the number literal? *)
  float64OK : string → bool;
  (** the text of the [UnmarshalTypeError] for a JSON value met at a
      destination of the named Go type *)
  typeError : json → string → error
}.

(** ** Decoding ([Decoder.Decode]) into the two destinations the program uses *)

Section Decode.
Context (env : Env).

(** The first error the elements of a list give, in order. *)
Definition firstError {A} (f : A → option error) (l : list A) : option error :=
  foldr (λ x rest, match f x with Some err => Some err | None => rest end) None l.

(** Decoding into an [interface{}] accepts every document; only a number
    literal that does not fit a float64 is reported. *)
Fixpoint interfaceError (j : json) : option error :=
  match j with
  | JNum lit => if float64OK env lit then None else Some (typeError env j "float64")
  | JArr elems => firstError interfaceError elems
  | JObj members => firstError (λ kv, interfaceError (snd kv)) members
  | _ => None
  end.

(** Destination [map[string]interface{}], nil before the call: [null]
    leaves it nil, an object stores its members in order (a repeated name
    overwrites), anything else is a type error. *)
Definition decodeMap (j : json) : result (gmap string json) :=
  match j with
  | JNull => Ok ∅
  | JObj members =>
      match firstError (λ kv, interfaceError (snd kv)) members with
      | Some err => Err err
      | None => Ok (foldl (λ m kv, <[fst kv := snd kv]> m) ∅ members)
      end
  | _ => Err (typeError env j "map[string]interface {}")
  end.

(** Destination of kind string: [null] leaves it as it is. *)
Definition decodeString (cur : string) (j : json) : result string :=
  match j with
  | JNull => Ok cur
  | JStr s => Ok s
  | _ => Err (typeError env j "string")
  end.

(** Destination of kind struct: [null] leaves it as it is; the members of
    an object are taken in order, each one stored through [field], which
    leaves the struct alone on a name that selects no field. *)
Definition decodeStruct {S} (field : S → string → json → result S) (goType : string)
    (cur : S) (j : json) : result S :=
  match j with
  | JNull => Ok cur
  | JObj members =>
      foldl (λ acc kv, match acc with
                       | Ok st => field st (fst kv) (snd kv)
                       | Err err => Err err
                       end) (Ok cur) members
  | _ => Err (typeError env j goType)
  end.

(** Destination of kind slice.  The decoder stores the i-th array element
    into the i-th place of the array behind the slice, on top of what that
    place holds: an element of the slice's earlier value, or what a longer
    earlier value left behind its end, or the zero value in fresh capacity.
    [mem] is that array as far as it has been written: the elements of the
    slice followed by what lies behind them. *)
Fixpoint decodeElems {A} (elem : A → json → result A) (zero : A)
    (mem : list A) (l : list json) : result (list A) :=
  match l with
  | [] => Ok []
  | j :: l' =>
      match elem (hd zero mem) j with
      | Err err => Err err
      | Ok a => match decodeElems elem zero (tl mem) l' with
                | Err err => Err err
                | Ok rest => Ok (a :: rest)
                end
      end
  end.

(** The result is the new slice and what lies behind its end.  [null] sets
    the slice to nil and the empty array sets it to a fresh empty slice;
    otherwise the slice has one element per array element and the places
    after them keep what they held. *)
Definition decodeSlice {A} (elem : A → json → result A) (zero : A) (goType : string)
    (mem : list A) (j : json) : result (list A * list A) :=
  match j with
  | JNull => Ok ([], [])
  | JArr [] => Ok ([], [])
  | JArr elems =>
      match decodeElems elem zero mem elems with
      | Ok l => Ok (l, skipn (length elems) mem)
      | Err err => Err err
      end
  | _ => Err (typeError env j goType)
  end.

(** [json.NewDecoder(body).Decode(&v)]: read one value, then store it. *)
Definition Decode {A} (store : json → result A) (body : string) : result A :=
  match readJSON env body with
  | Err err => Err err
  | Ok j => store j
  end.

End Decode.

(** ** Package mcp_golang: the response envelopes the handlers build *)

Module mcp_golang.

Inductive Content : Type :=
  | NewTextContent (text : string).

Record ToolResponse : Type := NewToolResponse { Content_ : list Content }.

Record EmbeddedResource : Type := NewTextEmbeddedResource {
  uri : string;
  text : string;
  mimeType : string
}.

Record ResourceResponse : Type := NewResourceResponse {
  Contents : list EmbeddedResource
}.

End mcp_golang.

(** ** main.go *)

Definition defaultAppPort : Z := 8080.
Definition ServerName : string := "Jira MCP Server".
Definition ServerVersion : string := "1.0.0".

(** [time.Second], in nanoseconds. *)
Definition Second : Z := 1000000000.

Module JiraConfig.
Record t : Type := { URL : string; APIKey : string; Email : string }.
End JiraConfig.

Module CreateIssueArgs.
Record t : Type := {
  JiraConfig : JiraConfig.t;
  ProjectKey : string;
  Summary : string;
  Description : string;
  IssueType : string
}.
End CreateIssueArgs.

Module UpdateIssueArgs.
Record t : Type := {
  JiraConfig : JiraConfig.t;
  IssueKey : string;
  Summary : string;
  Description : string
}.
End UpdateIssueArgs.

Module SearchIssuesArgs.
Record t : Type := {
  JiraConfig : JiraConfig.t;
  JQL : string
}.
End SearchIssuesArgs.

Record JiraClient : Type := {
  config : JiraConfig.t;
  httpClient : http.Client;
  isCloud : bool
}.

(** The anonymous struct [searchIssues] decodes the response into. *)
Module SearchResult.
Record fields : Type := { Summary : string }.
Record issue : Type := { Key : string; Fields : fields }.
Record t : Type := { Issues : list issue }.

Definition zeroIssue : issue := {| Key := ""; Fields := {| Summary := "" |} |}.
Definition zero : t := {| Issues := [] |}.
End SearchResult.

Section Main.
Context (env : Env).

(** [http.NewRequest]: a request with an empty header, unless the method
    or the URL is refused. *)
Definition NewRequest (method url : string) (body : option string)
  : result http.Request :=
  match newRequestError env method url with
  | Some err => Err err
  | None => Ok {| http.Method := method; http.URL := url;
                  http.Header := ∅; http.Body := body |}
  end.

Definition Do (c : http.Client) (req : http.Request) : result http.Response :=
  roundTrip env (http.Timeout c) req.

(** [json.Marshal] on strings, slices and string-keyed maps: it has no
    error case for these. *)
Definition Marshal (v : value) : result string :=
  Ok (writeJSON env (json_.toJSON v)).

(** NewJiraClient initializes a Jira client *)
Definition NewJiraClient (config : JiraConfig.t) : JiraClient :=
  let isCloud :=
    strings.Contains (strings.ToLower (mapLower env) (JiraConfig.URL config))
      ".atlassian.net" in
  {| config := config;
     httpClient := {| http.Timeout := 10 * Second |};
     isCloud := isCloud |}.

(** getBaseAPIPath returns the appropriate API base path based on Jira type *)
Definition getBaseAPIPath (c : JiraClient) : string :=
  if isCloud c then "/rest/api/3" else "/rest/api/2".

(** Every operation returns the requests it handed to [httpClient.Do], in
    order, next to its Go result. *)

(** createIssue creates a new issue in Jira *)
Definition createIssue (c : JiraClient) (args : CreateIssueArgs.t)
  : list http.Request * result string :=
  let url := JiraConfig.URL (config c) +:+ getBaseAPIPath c +:+ "/issue" in
  let payload :=
    VMap {[ "fields" :=
      VMap (<["project" := VMap {[ "key" := VString (CreateIssueArgs.ProjectKey args) ]}]>
           (<["summary" := VString (CreateIssueArgs.Summary args)]>
           (<["description" := VString (CreateIssueArgs.Description args)]>
           (<["issuetype" := VMap {[ "name" := VString (CreateIssueArgs.IssueType args) ]}]>
            ∅)))) ]} in
  match Marshal payload with
  | Err err => ([], Err ("failed to marshal payload: " +:+ err))
  | Ok body =>
  match NewRequest "POST" url (Some body) with
  | Err err => ([], Err ("failed to create request: " +:+ err))
  | Ok req =>
  let req :=
    if isCloud c
    then http.SetBasicAuth req (JiraConfig.Email (config c)) (JiraConfig.APIKey (config c))
    else http.HeaderSet req "Authorization" ("Bearer " +:+ JiraConfig.APIKey (config c)) in
  let req := http.HeaderSet req "Content-Type" "application/json" in
  ([req],
   match Do (httpClient c) req with
   | Err err => Err ("failed to send request: " +:+ err)
   | Ok resp =>
     if negb (http.StatusCode resp =? http.StatusCreated)
     then Err ("failed to create issue, status: " +:+ pretty (http.StatusCode resp))
     else
     match Decode env (decodeMap env) (http.RespBody resp) with
     | Err err => Err ("failed to decode response: " +:+ err)
     | Ok result =>
       match result !! "key" with
       | Some (JStr issueKey) => Ok issueKey
       | _ => Err "issue key not found in response"
       end
     end
   end)
  end end.

(** updateIssue updates an existing issue in Jira *)
Definition updateIssue (c : JiraClient) (args : UpdateIssueArgs.t)
  : list http.Request * result string :=
  let url := JiraConfig.URL (config c) +:+ getBaseAPIPath c +:+ "/issue/"
             +:+ UpdateIssueArgs.IssueKey args in
  let fields : gmap string value := ∅ in
  let fields :=
    if negb (String.eqb (UpdateIssueArgs.Summary args) "")
    then <["summary" := VString (UpdateIssueArgs.Summary args)]> fields
    else fields in
  let fields :=
    if negb (String.eqb (UpdateIssueArgs.Description args) "")
    then <["description" := VString (UpdateIssueArgs.Description args)]> fields
    else fields in
  let payload := VMap {[ "fields" := VMap fields ]} in
  match Marshal payload with
  | Err err => ([], Err ("failed to marshal payload: " +:+ err))
  | Ok body =>
  match NewRequest "PUT" url (Some body) with
  | Err err => ([], Err ("failed to create request: " +:+ err))
  | Ok req =>
  let req :=
    if isCloud c
    then http.SetBasicAuth req (JiraConfig.Email (config c)) (JiraConfig.APIKey (config c))
    else http.HeaderSet req "Authorization" ("Bearer " +:+ JiraConfig.APIKey (config c)) in
  let req := http.HeaderSet req "Content-Type" "application/json" in
  ([req],
   match Do (httpClient c) req with
   | Err err => Err ("failed to send request: " +:+ err)
   | Ok resp =>
     if negb (http.StatusCode resp =? http.StatusNoContent)
        && negb (http.StatusCode resp =? http.StatusOK)
     then Err ("failed to update issue, status: " +:+ pretty (http.StatusCode resp))
     else Ok (UpdateIssueArgs.IssueKey args)
   end)
  end end.

(** The stores of the three struct levels of the search response. *)
Definition storeFields (st : SearchResult.fields) (key : string) (j : json)
  : result SearchResult.fields :=
  if json_.matchField "summary" key then
    match decodeString env (SearchResult.Summary st) j with
    | Ok s => Ok {| SearchResult.Summary := s |}
    | Err err => Err err
    end
  else Ok st.

Definition storeIssue (st : SearchResult.issue) (key : string) (j : json)
  : result SearchResult.issue :=
  if json_.matchField "key" key then
    match decodeString env (SearchResult.Key st) j with
    | Ok s => Ok {| SearchResult.Key := s; SearchResult.Fields := SearchResult.Fields st |}
    | Err err => Err err
    end
  else if json_.matchField "fields" key then
    match decodeStruct env storeFields "struct" (SearchResult.Fields st) j with
    | Ok f => Ok {| SearchResult.Key := SearchResult.Key st; SearchResult.Fields := f |}
    | Err err => Err err
    end
  else Ok st.

(** The state is the struct together with what lies behind the end of its
    slice [Issues]. *)
Definition storeResult (st : SearchResult.t * list SearchResult.issue)
    (key : string) (j : json)
  : result (SearchResult.t * list SearchResult.issue) :=
  if json_.matchField "issues" key then
    match decodeSlice env (decodeStruct env storeIssue "struct") SearchResult.zeroIssue
            "[]struct" (SearchResult.Issues (fst st) ++ snd st) j with
    | Ok (l, behind) => Ok ({| SearchResult.Issues := l |}, behind)
    | Err err => Err err
    end
  else Ok st.

Definition decodeSearchResult (j : json) : result SearchResult.t :=
  match decodeStruct env storeResult "struct" (SearchResult.zero, []) j with
  | Ok st => Ok (fst st)
  | Err err => Err err
  end.

(** searchIssues searches issues using JQL *)
Definition searchIssues (c : JiraClient) (args : SearchIssuesArgs.t)
  : list http.Request * result (list (gmap string string)) :=
  let url := JiraConfig.URL (config c) +:+ getBaseAPIPath c +:+ "/search?jql="
             +:+ SearchIssuesArgs.JQL args +:+ "&fields=summary" in
  match NewRequest "GET" url None with
  | Err err => ([], Err ("failed to create request: " +:+ err))
  | Ok req =>
  let req :=
    if isCloud c
    then http.SetBasicAuth req (JiraConfig.Email (config c)) (JiraConfig.APIKey (config c))
    else http.HeaderSet req "Authorization" ("Bearer " +:+ JiraConfig.APIKey (config c)) in
  let req := http.HeaderSet req "Content-Type" "application/json" in
  ([req],
   match Do (httpClient c) req with
   | Err err => Err ("failed to send request: " +:+ err)
   | Ok resp =>
     if negb (http.StatusCode resp =? http.StatusOK)
     then Err ("failed to search issues, status: " +:+ pretty (http.StatusCode resp))
     else
     match Decode env decodeSearchResult (http.RespBody resp) with
     | Err err => Err ("failed to decode response: " +:+ err)
     | Ok result =>
       Ok (map (λ issue : SearchResult.issue,
                  ({[ "key" := SearchResult.Key issue;
                      "summary" := SearchResult.Summary (SearchResult.Fields issue) ]}
                   : gmap string string))
             (SearchResult.Issues result))
     end
   end)
  end.

(** mustMarshal is a helper to marshal JSON or panic.  [Marshal] never
    returns an error here, so the panic is not reached. *)
Definition mustMarshal (v : value) : string :=
  match Marshal v with
  | Ok b => b
  | Err _ => ""
  end.

(** The resource ["info://server"] registered in [main]. *)
Definition info_server (_ : unit) : result mcp_golang.ResourceResponse :=
  let info : gmap string value :=
    {[ "name" := VString ServerName;
       "version" := VString ServerVersion;
       "actions" := VSlice [VString "create_issue";
                            VString "update_issue";
                            VString "search_issues"] ]} in
  Ok (mcp_golang.NewResourceResponse
        [mcp_golang.NewTextEmbeddedResource "info://server"
           (mustMarshal (VMap info)) "application/json"]).

(** The tool ["create_issue"] registered in [main]. *)
Definition create_issue (args : CreateIssueArgs.t)
  : list http.Request * result mcp_golang.ToolResponse :=
  let client := NewJiraClient (CreateIssueArgs.JiraConfig args) in
  let '(sent, r) := createIssue client args in
  (sent,
   match r with
   | Err err => Err err
   | Ok issueKey =>
       Ok (mcp_golang.NewToolResponse
             [mcp_golang.NewTextContent ("Created issue: " +:+ issueKey)])
   end).

(** The tool ["update_issue"] registered in [main]. *)
Definition update_issue (args : UpdateIssueArgs.t)
  : list http.Request * result mcp_golang.ToolResponse :=
  let client := NewJiraClient (UpdateIssueArgs.JiraConfig args) in
  let '(sent, r) := updateIssue client args in
  (sent,
   match r with
   | Err err => Err err
   | Ok issueKey =>
       Ok (mcp_golang.NewToolResponse
             [mcp_golang.NewTextContent ("Updated issue: " +:+ issueKey)])
   end).

(** The tool ["search_issues"] registered in [main]. *)
Definition search_issues (args : SearchIssuesArgs.t)
  : list http.Request * result mcp_golang.ToolResponse :=
  let client := NewJiraClient (SearchIssuesArgs.JiraConfig args) in
  let '(sent, r) := searchIssues client args in
  (sent,
   match r with
   | Err err => Err err
   | Ok issues =>
       Ok (mcp_golang.NewToolResponse
             [mcp_golang.NewTextContent
                (mustMarshal (VSlice (map (λ m : gmap string string,
                                             VMap (VString <$> m)) issues)))])
   end).

End Main.

(** ** [main]: start-up of the server

    [main] talks to the mcp-golang server and to the logger; these calls are
    recorded as events, and what the server answers is the host. *)

(** The handler passed to [RegisterTool]. *)
Inductive ToolHandler : Type :=
  | CreateHandler (h : CreateIssueArgs.t → list http.Request * result mcp_golang.ToolResponse)
  | UpdateHandler (h : UpdateIssueArgs.t → list http.Request * result mcp_golang.ToolResponse)
  | SearchHandler (h : SearchIssuesArgs.t → list http.Request * result mcp_golang.ToolResponse).

Inductive Event : Type :=
  | Log (line : string)
  | NewHTTPTransport (endpoint : string)
  | WithAddr (addr : string)
  | NewServer
  | RegisterResource (uri name description mimeType : string)
      (h : unit → result mcp_golang.ResourceResponse)
  | RegisterTool (name description : string) (h : ToolHandler)
  | Serve.

(** How [main] ends: [log.Fatalf] or a plain return. *)
Inductive Exit : Type :=
  | Fatal (line : string)
  | Return.

(** What [main] gets from outside: the parsed command line and the answers
    of the server library. *)
Record Host : Type := {
  (** the value of the flag [-port], when given *)
  portFlag : option Z;
  (** the error of [server.RegisterResource] for a URI, if any *)
  registerResourceError : string → option error;
  (** the error of [server.RegisterTool] for a name, if any *)
  registerToolError : string → option error;
  (** the error [server.Serve] returns with, if any *)
  serveError : option error
}.

Definition main (host : Host) (env : Env) : list Event * Exit :=
  let appPort := match portFlag host with Some p => p | None => defaultAppPort end in
  let start :=
    [Log "Starting Jira MCP Server...";
     Log ("Listening on port: " +:+ pretty appPort);
     NewHTTPTransport "/mcp";
     WithAddr (":" +:+ pretty appPort);
     NewServer] in
  let registerInfo :=
    RegisterResource "info://server" "Server Information"
      "Provides details about the server and available actions" "application/json"
      (info_server env) in
  match registerResourceError host "info://server" with
  | Some err => (start ++ [registerInfo], Fatal ("Error registering server info: " +:+ err))
  | None =>
  let registerCreate :=
    RegisterTool "create_issue" "Create a new Jira issue" (CreateHandler (create_issue env)) in
  match registerToolError host "create_issue" with
  | Some err =>
      (start ++ [registerInfo; registerCreate],
       Fatal ("Error registering create_issue tool: " +:+ err))
  | None =>
  let registerUpdate :=
    RegisterTool "update_issue" "Update an existing Jira issue"
      (UpdateHandler (update_issue env)) in
  match registerToolError host "update_issue" with
  | Some err =>
      (start ++ [registerInfo; registerCreate; registerUpdate],
       Fatal ("Error registering update_issue tool: " +:+ err))
  | None =>
  let registerSearch :=
    RegisterTool "search_issues" "Search Jira issues using JQL"
      (SearchHandler (search_issues env)) in
  match registerToolError host "search_issues" with
  | Some err =>
      (start ++ [registerInfo; registerCreate; registerUpdate; registerSearch],
       Fatal ("Error registering search_issues tool: " +:+ err))
  | None =>
      (start ++ [registerInfo; registerCreate; registerUpdate; registerSearch; Serve],
       match serveError host with
       | Some err => Fatal ("Server error: " +:+ err)
       | None => Return
       end)
  end end end end.

(** ** Vocabulary of the statements *)

(** [sub] occurs in [s]. *)
Definition hasSubstring (s sub : string) : Prop :=
  ∃ pre post : string, s = pre +:+ sub +:+ post.

(** [sub] occurs in [s] up to the case of ASCII letters. *)
Definition hasSubstringFold (s sub : string) : Prop :=
  ∃ pre mid post : string, s = pre +:+ mid +:+ post ∧ strings.lowerASCII mid = sub.

(** [req] is a request one of the three operations of client [c] hands to
    the HTTP client. *)
Definition sentBy (env : Env) (c : JiraClient) (req : http.Request) : Prop :=
  (∃ args, req ∈ (createIssue env c args).1)
  ∨ (∃ args, req ∈ (updateIssue env c args).1)
  ∨ (∃ args, req ∈ (searchIssues env c args).1).

(** The value of the Authorization header of client [c]. *)
Definition authorization (c : JiraClient) : string :=
  if isCloud c
  then "Basic " +:+ base64.EncodeToString
         (JiraConfig.Email (config c) +:+ ":" +:+ JiraConfig.APIKey (config c))
  else "Bearer " +:+ JiraConfig.APIKey (config c).

(** The request has the content type, the API path and the Authorization
    header of the variant: [/rest/api/3] and HTTP Basic over
    [email:credential] for Cloud, [/rest/api/2] and [Bearer credential] for
    Data Center. *)
Definition followsVariant (cfg : JiraConfig.t) (cloud : bool) (req : http.Request) : Prop :=
  http.Header req !! "Content-Type" = Some "application/json"
  ∧ (cloud = true →
       (∃ rest, http.URL req = JiraConfig.URL cfg +:+ "/rest/api/3" +:+ rest)
       ∧ http.Header req !! "Authorization"
         = Some ("Basic " +:+ base64.EncodeToString
                   (JiraConfig.Email cfg +:+ ":" +:+ JiraConfig.APIKey cfg)))
  ∧ (cloud = false →
       (∃ rest, http.URL req = JiraConfig.URL cfg +:+ "/rest/api/2" +:+ rest)
       ∧ http.Header req !! "Authorization" = Some ("Bearer " +:+ JiraConfig.APIKey cfg)).

(** Does the request authenticate with the Basic scheme (else: Bearer)? *)
Definition usesBasicAuth (req : http.Request) : bool :=
  match http.Header req !! "Authorization" with
  | Some v => strings.HasPrefix v "Basic "
  | None => false
  end.

(** The JSON document of the create payload. *)
Definition createDocument (args : CreateIssueArgs.t) : json :=
  JObj [("fields",
         JObj [("description", JStr (CreateIssueArgs.Description args));
               ("issuetype", JObj [("name", JStr (CreateIssueArgs.IssueType args))]);
               ("project", JObj [("key", JStr (CreateIssueArgs.ProjectKey args))]);
               ("summary", JStr (CreateIssueArgs.Summary args))])].

(** A member that is present only for a non-empty value. *)
Definition optionalMember (name val : string) : list (string * json) :=
  if String.eqb val "" then [] else [(name, JStr val)].

(** The JSON document of the update payload. *)
Definition updateDocument (args : UpdateIssueArgs.t) : json :=
  JObj [("fields",
         JObj (optionalMember "description" (UpdateIssueArgs.Description args)
               ++ optionalMember "summary" (UpdateIssueArgs.Summary args)))].

(** A stub upstream, in the manner of a test double: every URL is accepted,
    every request is answered with the given status, and every body reads as
    the given document. *)
Definition stubEnv (status : Z) (doc : result json) : Env :=
  {| mapLower := λ s, s;
     newRequestError := λ _ _, None;
     roundTrip := λ _ _, Ok {| http.StatusCode := status; http.RespBody := "" |};
     writeJSON := λ _, "";
     readJSON := λ _, doc;
     float64OK := λ _, true;
     typeError := λ _ _, "json: cannot unmarshal" |}.

Definition cloudConfig : JiraConfig.t :=
  {| JiraConfig.URL := "https://acme.Atlassian.NET";
     JiraConfig.APIKey := "token";
     JiraConfig.Email := "dev@example.com" |}.

Definition dataCenterConfig : JiraConfig.t :=
  {| JiraConfig.URL := "https://jira.example.com";
     JiraConfig.APIKey := "token";
     JiraConfig.Email := "" |}.

(** The value of the last member called [name], as a Go map keeps it. *)
Fixpoint lastMember (name : string) (ms : list (string * json)) : option json :=
  match ms with
  | [] => None
  | kv :: ms' =>
      match lastMember name ms' with
      | Some v => Some v
      | None => if String.eqb (fst kv) name then Some (snd kv) else None
      end
  end.

(** An issue as the upstream API lists it. *)
Definition issueDocument (ks : string * string) : json :=
  JObj [("key", JStr (fst ks)); ("fields", JObj [("summary", JStr (snd ks))])].

(** A search response listing the given (key, summary) pairs. *)
Definition searchDocument (l : list (string * string)) : json :=
  JObj [("issues", JArr (map issueDocument l))].

(** The view of an issue the operation returns. *)
Definition issueView (ks : string * string) : gmap string string :=
  {[ "key" := fst ks; "summary" := snd ks ]}.

(** The struct value an issue decodes to. *)
Definition issueOf (ks : string * string) : SearchResult.issue :=
  {| SearchResult.Key := fst ks;
     SearchResult.Fields := {| SearchResult.Summary := snd ks |} |}.

(** ** Vocabulary of the further properties *)

(** The environment [env] with another network. *)
Definition withRoundTrip (env : Env) (rt : Z → http.Request → result http.Response) : Env :=
  {| mapLower := mapLower env;
     newRequestError := newRequestError env;
     roundTrip := rt;
     writeJSON := writeJSON env;
     readJSON := readJSON env;
     float64OK := float64OK env;
     typeError := typeError env |}.


(** The JSON document of one {key, summary} pair of the search result. *)
Definition viewDocument (ks : string * string) : json :=
  JObj [("key", JStr (fst ks)); ("summary", JStr (snd ks))].

(** Does the member select a field of an issue? *)
Definition selectsIssueField (kv : string * json) : bool :=
  json_.matchField "key" (fst kv) || json_.matchField "fields" (fst kv).

(** A document without the members the search decoder skips: at the top
    level only "issues" is kept, in an issue only "key" and "fields", and
    under "fields" only "summary". *)
Definition pruneFields (v : json) : json :=
  match v with
  | JObj ms => JObj (List.filter (λ kv, json_.matchField "summary" (fst kv)) ms)
  | _ => v
  end.

Definition pruneIssue (e : json) : json :=
  match e with
  | JObj ms =>
      JObj (map (λ kv, if json_.matchField "key" (fst kv) then kv
                       else (fst kv, pruneFields (snd kv)))
              (List.filter selectsIssueField ms))
  | _ => e
  end.

Definition pruneIssues (v : json) : json :=
  match v with
  | JArr elems => JArr (map pruneIssue elems)
  | _ => v
  end.

Definition pruneSearch (j : json) : json :=
  match j with
  | JObj ms =>
      JObj (map (λ kv, (fst kv, pruneIssues (snd kv)))
              (List.filter (λ kv, json_.matchField "issues" (fst kv)) ms))
  | _ => j
  end.


(** A value that cannot be stored into a string. *)
Definition notStringOrNull (v : json) : bool :=
  match v with
  | JNull | JStr _ => false
  | _ => true
  end.

(** A document that cannot be stored into a struct or a map. *)
Definition notObjectOrNull (j : json) : bool :=
  match j with
  | JNull | JObj _ => false
  | _ => true
  end.

(** The loop of [decodeStruct]. *)
Definition storeMembers {S} (field : S → string → json → result S)
    (acc : result S) (ms : list (string * json)) : result S :=
  foldl (λ acc kv, match acc with
                   | Ok st => field st (fst kv) (snd kv)
                   | Err err => Err err
                   end) acc ms.

(** An issue with a "key" member that is neither a string nor null. *)
Definition badKeyIssue (e : json) : bool :=
  match e with
  | JObj ms =>
      existsb (λ kv, json_.matchField "key" (fst kv) && notStringOrNull (snd kv)) ms
  | _ => false
  end.

(** Ascending member names. *)
Definition keyLe (a b : string * json) : Prop := String.le (fst a) (fst b).

(** The names of the tools registered, in order. *)
Definition toolNames (events : list Event) : list string :=
  omap (λ e, match e with RegisterTool name _ _ => Some name | _ => None end) events.

(** Was [server.Serve] called? *)
Definition served (events : list Event) : bool :=
  existsb (λ e, match e with Serve => true | _ => false end) events.

(** An upstream that cannot be reached. *)
Definition offlineEnv : Env :=
  {| mapLower := λ s, s;
     newRequestError := λ _ _, None;
     roundTrip := λ _ _, Err "dial tcp: connection refused";
     writeJSON := λ _, "";
     readJSON := λ _, Err "EOF";
     float64OK := λ _, true;
     typeError := λ _ _, "json: cannot unmarshal" |}.

Definition sampleCreate (cfg : JiraConfig.t) : CreateIssueArgs.t :=
  {| CreateIssueArgs.JiraConfig := cfg;
     CreateIssueArgs.ProjectKey := "PROJ";
     CreateIssueArgs.Summary := "Title";
     CreateIssueArgs.Description := "Text";
     CreateIssueArgs.IssueType := "Task" |}.

Definition sampleUpdate (cfg : JiraConfig.t) : UpdateIssueArgs.t :=
  {| UpdateIssueArgs.JiraConfig := cfg;
     UpdateIssueArgs.IssueKey := "PROJ-7";
     UpdateIssueArgs.Summary := "New title";
     UpdateIssueArgs.Description := "" |}.

Definition sampleSearch (cfg : JiraConfig.t) : SearchIssuesArgs.t :=
  {| SearchIssuesArgs.JiraConfig := cfg;
     SearchIssuesArgs.JQL := "project = PROJ" |}.

(** A search answer in the shape the Jira REST API gives it. *)
Definition jiraSearchAnswer : json :=
  JObj [("expand", JStr "schema,names");
        ("startAt", JNum "0");
        ("maxResults", JNum "50");
        ("total", JNum "1");
        ("issues",
         JArr [JObj [("expand", JStr "operations");
                     ("id", JStr "10000");
                     ("self", JStr "https://jira.example.com/rest/api/2/issue/10000");
                     ("key", JStr "A-1");
                     ("fields", JObj [("summary", JStr "S1")])]])].

(** A host on which every registration succeeds and [Serve] returns. *)
Definition readyHost : Host :=
  {| portFlag := Some 9090;
     registerResourceError := λ _, None;
     registerToolError := λ _, None;
     serveError := None |}.

(** A host that refuses the tool update_issue. *)
Definition refusingHost : Host :=
  {| portFlag := None;
     registerResourceError := λ _, None;
     registerToolError := λ name, if String.eqb name "update_issue"
                                  then Some "invalid handler" else None;
     serveError := None |}.

(** ** Checks of the library models on known values *)

Example base64_rfc4648 :
  map base64.EncodeToString ["f"; "fo"; "foo"; "foob"; "fooba"; "foobar"]
  = ["Zg=="; "Zm8="; "Zm9v"; "Zm9vYg=="; "Zm9vYmE="; "Zm9vYmFy"].
Proof. reflexivity. Qed.

Example Index_examples :
  strings.Index "chicken" "ken" = 4 ∧ strings.Index "chicken" "dmr" = -1
  ∧ strings.Index "chicken" "" = 0.
Proof. repeat split. Qed.

Example ToLower_example :
  strings.ToLower (λ s, s) "HTTPS://Acme.ATLASSIAN.net/[x]_`{" = "https://acme.atlassian.net/[x]_`{".
Proof. reflexivity. Qed.

(** "KEY" and the name spelled with U+212A KELVIN SIGN select the field
    [key]; "keys" does not. *)
Example matchField_examples :
  json_.matchField "key" "KEY" = true
  ∧ json_.matchField "key" (String "226" (String "132" (String "170" "ey"))) = true
  ∧ json_.matchField "key" "keys" = false.
Proof. repeat split. Qed.

Example resolve_cloud : isCloud (NewJiraClient (stubEnv 200 (Ok JNull)) cloudConfig) = true.
Proof. reflexivity. Qed.

Example resolve_data_center :
  isCloud (NewJiraClient (stubEnv 200 (Ok JNull)) dataCenterConfig) = false.
Proof. reflexivity. Qed.

(** A repeated member overrides, [null] does not, and a member that selects
    no field is skipped. *)
Example decode_issue_members :
  decodeStruct (stubEnv 200 (Ok JNull)) (storeIssue (stubEnv 200 (Ok JNull))) "struct"
    SearchResult.zeroIssue
    (JObj [("key", JStr "A-1"); ("id", JNum "7"); ("Key", JStr "A-2"); ("key", JNull);
           ("fields", JObj [("summary", JStr "S"); ("status", JObj [])])])
  = Ok (issueOf ("A-2", "S")).
Proof. reflexivity. Qed.

(** A second "issues" member is decoded on top of the first: its elements
    keep what the earlier elements held and it does not set. *)
Example decode_repeated_issues :
  decodeSearchResult (stubEnv 200 (Ok JNull))
    (JObj [("issues", JArr [issueDocument ("A-1", "S1")]);
           ("issues", JArr [JObj []])])
  = Ok {| SearchResult.Issues := [issueOf ("A-1", "S1")] |}.
Proof. reflexivity. Qed.

(** A shorter array cuts the slice, and a longer one after it finds again
    what was cut off; [null] and the empty array start afresh. *)
Example decode_issues_left_behind :
  decodeSearchResult (stubEnv 200 (Ok JNull))
    (JObj [("issues", JArr [issueDocument ("A-1", "S1"); issueDocument ("B-2", "S2")]);
           ("issues", JArr [JObj [("key", JStr "C-3")]]);
           ("issues", JArr [JObj []; JObj []; JObj []])])
  = Ok {| SearchResult.Issues :=
            [issueOf ("C-3", "S1"); issueOf ("B-2", "S2"); issueOf ("", "")] |}
  ∧ decodeSearchResult (stubEnv 200 (Ok JNull))
      (JObj [("issues", JArr [issueDocument ("A-1", "S1")]);
             ("issues", JNull);
             ("issues", JArr [JObj []])])
    = Ok {| SearchResult.Issues := [issueOf ("", "")] |}
  ∧ decodeSearchResult (stubEnv 200 (Ok JNull))
      (JObj [("issues", JArr [issueDocument ("A-1", "S1")]);
             ("issues", JArr []);
             ("issues", JArr [JObj []])])
    = Ok {| SearchResult.Issues := [issueOf ("", "")] |}.
Proof. repeat split. Qed.

Example search_empty_list :
  (searchIssues (stubEnv 200 (Ok (searchDocument [])))
     (NewJiraClient (stubEnv 200 (Ok JNull)) dataCenterConfig)
     {| SearchIssuesArgs.JiraConfig := dataCenterConfig;
        SearchIssuesArgs.JQL := "project = A" |}).2 = Ok [].
Proof. reflexivity. Qed.

(** ** Substrings *)

Lemma append_nil (s : string) : "" +:+ s = s.
Proof. reflexivity. Qed.

Lemma append_cons (c : ascii) (a b : string) : String c a +:+ b = String c (a +:+ b).
Proof. reflexivity. Qed.

(** [String.append] does not unfold under [simpl]; its equations are applied
    by rewriting. *)
Ltac unfold_append := rewrite ?append_cons, ?append_nil in *.

Lemma HasPrefix_spec (s p : string) :
  strings.HasPrefix s p = true ↔ ∃ t, s = p +:+ t.
Proof.
  revert s. induction p as [|x p IH]; intros s; simpl.
  - split; [intros _; now exists s | reflexivity].
  - destruct s as [|c s]; simpl.
    + split; [discriminate | intros [t Ht]; unfold_append; discriminate].
    + rewrite andb_true_iff, IH. split.
      * intros [Hc [t ->]]. apply Ascii.eqb_eq in Hc as ->. now exists t.
      * intros [t Ht]. unfold_append. injection Ht as -> ->.
        split; [apply Ascii.eqb_refl | now exists t].
Qed.

Lemma Index_lower_bound (s sub : string) : -1 ≤ strings.Index s sub.
Proof.
  induction s as [|c s IH]; simpl.
  - destruct (strings.HasPrefix "" sub); lia.
  - destruct (strings.HasPrefix (String c s) sub); [lia|].
    destruct (Z.ltb_spec (strings.Index s sub) 0); lia.
Qed.

Lemma Index_found (s sub : string) :
  0 ≤ strings.Index s sub ↔ hasSubstring s sub.
Proof.
  induction s as [|c s IH]; simpl.
  - destruct (strings.HasPrefix "" sub) eqn:Hp.
    + split; [intros _ | lia]. apply HasPrefix_spec in Hp as [t Ht]. now exists ""%string, t.
    + split; [lia|]. intros (pre & post & H).
      destruct pre; unfold_append.
      * assert (strings.HasPrefix "" sub = true) by (apply HasPrefix_spec; eauto). congruence.
      * discriminate.
  - destruct (strings.HasPrefix (String c s) sub) eqn:Hp.
    + split; [intros _ | lia]. apply HasPrefix_spec in Hp as [t Ht]. now exists ""%string, t.
    + destruct (Z.ltb_spec (strings.Index s sub) 0) as [Hlt|Hge].
      * split; [lia|]. intros (pre & post & H).
        destruct pre as [|x pre]; unfold_append.
        -- assert (strings.HasPrefix (String c s) sub = true) by (apply HasPrefix_spec; eauto).
           congruence.
        -- injection H as _ H. assert (hasSubstring s sub) by (now exists pre, post).
           apply IH in H0. lia.
      * split; [|lia]. intros _. apply IH in Hge as (pre & post & ->).
        now exists (String c pre), post.
Qed.

Lemma Contains_spec (s sub : string) :
  strings.Contains s sub = true ↔ hasSubstring s sub.
Proof. unfold strings.Contains. rewrite Z.leb_le. apply Index_found. Qed.

Lemma Contains_false_spec (s sub : string) :
  strings.Contains s sub = false ↔ ¬ hasSubstring s sub.
Proof.
  rewrite <- Contains_spec. destruct (strings.Contains s sub); split; congruence.
Qed.

(** ** Lower-casing of ASCII strings *)

Lemma lowerASCII_app (a b : string) :
  strings.lowerASCII (a +:+ b) = strings.lowerASCII a +:+ strings.lowerASCII b.
Proof.
  induction a as [|x a IH]; unfold_append; simpl; [reflexivity | now rewrite IH].
Qed.

Lemma lowerASCII_split (s a b : string) :
  strings.lowerASCII s = a +:+ b →
  ∃ s1 s2, s = s1 +:+ s2 ∧ strings.lowerASCII s1 = a ∧ strings.lowerASCII s2 = b.
Proof.
  revert s. induction a as [|x a IH]; intros s H; unfold_append.
  - now exists ""%string, s.
  - destruct s as [|c s]; simpl in H; [discriminate|].
    injection H as Hc H. apply IH in H as (s1 & s2 & -> & H1 & H2).
    exists (String c s1), s2. unfold_append. simpl. now rewrite Hc, H1.
Qed.

Lemma lowerASCII_no_upper (s : string) :
  strings.hasUpper s = false → strings.lowerASCII s = s.
Proof.
  induction s as [|c s IH]; simpl; [reflexivity|].
  intros [Hc Hs]%orb_false_iff. unfold strings.lowerByte. now rewrite Hc, IH.
Qed.

Lemma ToLower_ASCII (f : string → string) (s : string) :
  strings.isASCII s = true → strings.ToLower f s = strings.lowerASCII s.
Proof.
  intros H. unfold strings.ToLower. rewrite H.
  destruct (strings.hasUpper s) eqn:Hu; [reflexivity|].
  symmetry. now apply lowerASCII_no_upper.
Qed.

Lemma hasSubstring_lowerASCII (s sub : string) :
  hasSubstring (strings.lowerASCII s) sub ↔ hasSubstringFold s sub.
Proof.
  split.
  - intros (pre & post & H).
    apply lowerASCII_split in H as (s1 & s2 & -> & _ & H).
    apply lowerASCII_split in H as (s3 & s4 & -> & H & _).
    now exists s1, s3, s4.
  - intros (pre & mid & post & -> & <-).
    exists (strings.lowerASCII pre), (strings.lowerASCII post).
    now rewrite !lowerASCII_app.
Qed.

(** ** Deployment-variant resolution *)

Lemma isCloud_NewJiraClient (env : Env) (cfg : JiraConfig.t) :
  isCloud (NewJiraClient env cfg)
  = strings.Contains (strings.ToLower (mapLower env) (JiraConfig.URL cfg)) ".atlassian.net".
Proof. reflexivity. Qed.

(** C1: the client built by [NewJiraClient] is a Cloud client exactly when
    the lower-cased base URL contains ".atlassian.net", and a Data Center
    client exactly when it does not; on a URL of ASCII bytes this is an
    occurrence of ".atlassian.net" in the URL itself up to letter case.
    [NewJiraClient] is a total function, so the resolution never fails. *)
Theorem variant_resolution (env : Env) (cfg : JiraConfig.t) :
  let lowered := strings.ToLower (mapLower env) (JiraConfig.URL cfg) in
  (isCloud (NewJiraClient env cfg) = true ↔ hasSubstring lowered ".atlassian.net")
  ∧ (isCloud (NewJiraClient env cfg) = false ↔ ¬ hasSubstring lowered ".atlassian.net")
  ∧ (strings.isASCII (JiraConfig.URL cfg) = true →
       (isCloud (NewJiraClient env cfg) = true
        ↔ hasSubstringFold (JiraConfig.URL cfg) ".atlassian.net")).
Proof.
  intros lowered. rewrite isCloud_NewJiraClient. fold lowered.
  split; [apply Contains_spec | split; [apply Contains_false_spec |]].
  intros Hascii. rewrite Contains_spec. subst lowered.
  rewrite (ToLower_ASCII _ _ Hascii). apply hasSubstring_lowerASCII.
Qed.

Lemma variant_resolution_witness :
  isCloud (NewJiraClient (stubEnv 200 (Ok JNull)) cloudConfig) = true
  ↔ hasSubstringFold "https://acme.Atlassian.NET" ".atlassian.net".
Proof.
  exact (proj2 (proj2 (variant_resolution (stubEnv 200 (Ok JNull)) cloudConfig)) eq_refl).
Defined.

(** ** The outbound request *)

(** The header every operation ends up with. *)
Lemma header_set (c : JiraClient) (req : http.Request) :
  http.Header req = ∅ →
  http.Header
    (http.HeaderSet
       (if isCloud c
        then http.SetBasicAuth req (JiraConfig.Email (config c)) (JiraConfig.APIKey (config c))
        else http.HeaderSet req "Authorization" ("Bearer " +:+ JiraConfig.APIKey (config c)))
       "Content-Type" "application/json")
  = <["Content-Type" := "application/json"]> (<["Authorization" := authorization c]> ∅).
Proof.
  intros Hempty. unfold authorization, http.SetBasicAuth, http.basicAuth.
  destruct (isCloud c); simpl; now rewrite Hempty.
Qed.

Lemma createIssue_sent (env : Env) (c : JiraClient) (args : CreateIssueArgs.t)
    (req : http.Request) :
  req ∈ (createIssue env c args).1 →
  http.Method req = "POST"
  ∧ http.URL req = JiraConfig.URL (config c) +:+ getBaseAPIPath c +:+ "/issue"
  ∧ http.Header req
    = <["Content-Type" := "application/json"]> (<["Authorization" := authorization c]> ∅).
Proof.
  unfold createIssue, Marshal, NewRequest.
  destruct (newRequestError env _ _); simpl; [intros H; inversion H|].
  intros ->%list_elem_of_singleton.
  split; [|split]; [destruct (isCloud c); reflexivity ..|].
  now apply header_set.
Qed.

Lemma updateIssue_sent (env : Env) (c : JiraClient) (args : UpdateIssueArgs.t)
    (req : http.Request) :
  req ∈ (updateIssue env c args).1 →
  http.Method req = "PUT"
  ∧ http.URL req = JiraConfig.URL (config c) +:+ getBaseAPIPath c +:+ "/issue/"
                   +:+ UpdateIssueArgs.IssueKey args
  ∧ http.Header req
    = <["Content-Type" := "application/json"]> (<["Authorization" := authorization c]> ∅).
Proof.
  unfold updateIssue, Marshal, NewRequest.
  destruct (newRequestError env _ _); simpl; [intros H; inversion H|].
  intros ->%list_elem_of_singleton.
  split; [|split]; [destruct (isCloud c); reflexivity ..|].
  now apply header_set.
Qed.

Lemma searchIssues_sent (env : Env) (c : JiraClient) (args : SearchIssuesArgs.t)
    (req : http.Request) :
  req ∈ (searchIssues env c args).1 →
  http.Method req = "GET"
  ∧ http.URL req = JiraConfig.URL (config c) +:+ getBaseAPIPath c +:+ "/search?jql="
                   +:+ SearchIssuesArgs.JQL args +:+ "&fields=summary"
  ∧ http.Header req
    = <["Content-Type" := "application/json"]> (<["Authorization" := authorization c]> ∅)
  ∧ http.Body req = None.
Proof.
  unfold searchIssues, NewRequest.
  destruct (newRequestError env _ _); simpl; [intros H; inversion H|].
  intros ->%list_elem_of_singleton.
  split; [|split; [|split]]; [destruct (isCloud c); reflexivity ..| |].
  - now apply header_set.
  - destruct (isCloud c); reflexivity.
Qed.

Lemma createIssue_body (env : Env) (c : JiraClient) (args : CreateIssueArgs.t)
    (req : http.Request) :
  req ∈ (createIssue env c args).1 →
  http.Body req = Some (writeJSON env (createDocument args)).
Proof.
  unfold createIssue, Marshal, NewRequest.
  destruct (newRequestError env _ _); simpl; [intros H; inversion H|].
  intros ->%list_elem_of_singleton.
  destruct (isCloud c); reflexivity.
Qed.

Lemma updateIssue_body (env : Env) (c : JiraClient) (args : UpdateIssueArgs.t)
    (req : http.Request) :
  req ∈ (updateIssue env c args).1 →
  http.Body req = Some (writeJSON env (updateDocument args)).
Proof.
  unfold updateIssue, Marshal, NewRequest, updateDocument, optionalMember.
  destruct (newRequestError env _ _); simpl; [intros H; inversion H|].
  intros ->%list_elem_of_singleton.
  destruct (isCloud c), (String.eqb (UpdateIssueArgs.Summary args) ""),
    (String.eqb (UpdateIssueArgs.Description args) ""); reflexivity.
Qed.

Lemma sentBy_request (env : Env) (c : JiraClient) (req : http.Request) :
  sentBy env c req →
  (∃ rest, http.URL req = JiraConfig.URL (config c) +:+ getBaseAPIPath c +:+ rest)
  ∧ http.Header req
    = <["Content-Type" := "application/json"]> (<["Authorization" := authorization c]> ∅).
Proof.
  intros [[args H] | [[args H] | [args H]]].
  - apply createIssue_sent in H as (_ & Hurl & Hhdr). eauto.
  - apply updateIssue_sent in H as (_ & Hurl & Hhdr). eauto.
  - apply searchIssues_sent in H as (_ & Hurl & Hhdr & _). eauto.
Qed.

Lemma sentBy_scheme (env : Env) (c : JiraClient) (req : http.Request) :
  sentBy env c req → usesBasicAuth req = isCloud c.
Proof.
  intros (_ & Hhdr)%sentBy_request. unfold usesBasicAuth. rewrite Hhdr.
  rewrite lookup_insert_ne, lookup_insert_eq by discriminate.
  unfold authorization. destruct (isCloud c); reflexivity.
Qed.

(** When [http.NewRequest] accepts the URL, the operation hands exactly one
    request to the HTTP client. *)
Lemma accepted_request_sent (env : Env) (c : JiraClient) :
  (∀ args,
     newRequestError env "POST"
       (JiraConfig.URL (config c) +:+ getBaseAPIPath c +:+ "/issue") = None →
     ∃ req, (createIssue env c args).1 = [req])
  ∧ (∀ args,
     newRequestError env "PUT"
       (JiraConfig.URL (config c) +:+ getBaseAPIPath c +:+ "/issue/"
        +:+ UpdateIssueArgs.IssueKey args) = None →
     ∃ req, (updateIssue env c args).1 = [req])
  ∧ (∀ args,
     newRequestError env "GET"
       (JiraConfig.URL (config c) +:+ getBaseAPIPath c +:+ "/search?jql="
        +:+ SearchIssuesArgs.JQL args +:+ "&fields=summary") = None →
     ∃ req, (searchIssues env c args).1 = [req]).
Proof.
  split; [|split]; intros args Hnew.
  - unfold createIssue, Marshal, NewRequest. rewrite Hnew. cbn [fst]. eauto.
  - unfold updateIssue, Marshal, NewRequest. rewrite Hnew. cbn [fst]. eauto.
  - unfold searchIssues, NewRequest. rewrite Hnew. cbn [fst]. eauto.
Qed.

Lemma sentBy_followsVariant (env : Env) (cfg : JiraConfig.t) (req : http.Request) :
  sentBy env (NewJiraClient env cfg) req →
  followsVariant cfg (isCloud (NewJiraClient env cfg)) req.
Proof.
  intros ((rest & Hurl) & Hhdr)%sentBy_request. unfold followsVariant.
  rewrite Hhdr, Hurl. unfold getBaseAPIPath, authorization.
  change (config (NewJiraClient env cfg)) with cfg.
  split; [reflexivity|].
  split; intros ->; (split; [now exists rest | reflexivity]).
Qed.

(** C2: each of the three operations of the client that [NewJiraClient]
    builds, once [http.NewRequest] has accepted its URL, hands the HTTP
    client one request, and that request carries
    [Content-Type: application/json]; for a Cloud client its URL is the base
    URL followed by [/rest/api/3] and its Authorization header is HTTP Basic
    over [email:credential]; for a Data Center client the URL continues with
    [/rest/api/2] and the header is [Bearer credential].  No operation sends
    a request that is not of this form. *)
Theorem request_follows_variant (env : Env) (cfg : JiraConfig.t) :
  (∀ args,
     newRequestError env "POST"
       (JiraConfig.URL cfg +:+ getBaseAPIPath (NewJiraClient env cfg) +:+ "/issue") = None →
     ∃ req, (createIssue env (NewJiraClient env cfg) args).1 = [req]
            ∧ followsVariant cfg (isCloud (NewJiraClient env cfg)) req)
  ∧ (∀ args,
     newRequestError env "PUT"
       (JiraConfig.URL cfg +:+ getBaseAPIPath (NewJiraClient env cfg) +:+ "/issue/"
        +:+ UpdateIssueArgs.IssueKey args) = None →
     ∃ req, (updateIssue env (NewJiraClient env cfg) args).1 = [req]
            ∧ followsVariant cfg (isCloud (NewJiraClient env cfg)) req)
  ∧ (∀ args,
     newRequestError env "GET"
       (JiraConfig.URL cfg +:+ getBaseAPIPath (NewJiraClient env cfg) +:+ "/search?jql="
        +:+ SearchIssuesArgs.JQL args +:+ "&fields=summary") = None →
     ∃ req, (searchIssues env (NewJiraClient env cfg) args).1 = [req]
            ∧ followsVariant cfg (isCloud (NewJiraClient env cfg)) req)
  ∧ (∀ req, sentBy env (NewJiraClient env cfg) req →
     http.Header req !! "Content-Type" = Some "application/json"
     ∧ (isCloud (NewJiraClient env cfg) = true →
          (∃ rest, http.URL req = JiraConfig.URL cfg +:+ "/rest/api/3" +:+ rest)
          ∧ http.Header req !! "Authorization"
            = Some ("Basic " +:+ base64.EncodeToString
                      (JiraConfig.Email cfg +:+ ":" +:+ JiraConfig.APIKey cfg)))
     ∧ (isCloud (NewJiraClient env cfg) = false →
          (∃ rest, http.URL req = JiraConfig.URL cfg +:+ "/rest/api/2" +:+ rest)
          ∧ http.Header req !! "Authorization"
            = Some ("Bearer " +:+ JiraConfig.APIKey cfg))).
Proof.
  destruct (accepted_request_sent env (NewJiraClient env cfg)) as (Hc & Hu & Hs).
  change (config (NewJiraClient env cfg)) with cfg in Hc, Hu, Hs.
  split; [|split; [|split]].
  - intros args Hnew. destruct (Hc args Hnew) as [req Hreq]. exists req.
    split; [exact Hreq|]. apply sentBy_followsVariant.
    left. exists args. rewrite Hreq. apply list_elem_of_here.
  - intros args Hnew. destruct (Hu args Hnew) as [req Hreq]. exists req.
    split; [exact Hreq|]. apply sentBy_followsVariant.
    right; left. exists args. rewrite Hreq. apply list_elem_of_here.
  - intros args Hnew. destruct (Hs args Hnew) as [req Hreq]. exists req.
    split; [exact Hreq|]. apply sentBy_followsVariant.
    right; right. exists args. rewrite Hreq. apply list_elem_of_here.
  - intros req Hsent. exact (sentBy_followsVariant env cfg req Hsent).
Qed.

Lemma request_follows_variant_witness :
  (∃ req, (createIssue (stubEnv 201 (Ok JNull))
             (NewJiraClient (stubEnv 201 (Ok JNull)) cloudConfig)
             (sampleCreate cloudConfig)).1 = [req]
          ∧ http.Header req !! "Authorization" = Some "Basic ZGV2QGV4YW1wbGUuY29tOnRva2Vu")
  ∧ (∃ req, (updateIssue (stubEnv 204 (Ok JNull))
               (NewJiraClient (stubEnv 204 (Ok JNull)) dataCenterConfig)
               (sampleUpdate dataCenterConfig)).1 = [req]
            ∧ http.Header req !! "Authorization" = Some "Bearer token")
  ∧ (∃ req, (searchIssues (stubEnv 200 (Ok JNull))
               (NewJiraClient (stubEnv 200 (Ok JNull)) cloudConfig)
               (sampleSearch cloudConfig)).1 = [req]
            ∧ http.Header req !! "Content-Type" = Some "application/json").
Proof.
  split; [|split].
  - destruct (proj1 (request_follows_variant (stubEnv 201 (Ok JNull)) cloudConfig)
                (sampleCreate cloudConfig) eq_refl) as (req & Hsent & _ & Hcloud & _).
    exists req. split; [exact Hsent | exact (proj2 (Hcloud eq_refl))].
  - destruct (proj1 (proj2 (request_follows_variant (stubEnv 204 (Ok JNull))
                              dataCenterConfig))
                (sampleUpdate dataCenterConfig) eq_refl) as (req & Hsent & _ & _ & Hdc).
    exists req. split; [exact Hsent | exact (proj2 (Hdc eq_refl))].
  - destruct (proj1 (proj2 (proj2 (request_follows_variant (stubEnv 200 (Ok JNull))
                                     cloudConfig)))
                (sampleSearch cloudConfig) eq_refl) as (req & Hsent & Hct & _).
    exists req. split; [exact Hsent | exact Hct].
Defined.

(** C10: two configurations with the same URL resolve to the same variant,
    whatever their API keys and e-mail addresses; their clients use the same
    API path, and the requests they send use the same authentication
    scheme. *)
Theorem variant_depends_on_url_only (env : Env) (cfg1 cfg2 : JiraConfig.t) :
  JiraConfig.URL cfg1 = JiraConfig.URL cfg2 →
  isCloud (NewJiraClient env cfg1) = isCloud (NewJiraClient env cfg2)
  ∧ getBaseAPIPath (NewJiraClient env cfg1) = getBaseAPIPath (NewJiraClient env cfg2)
  ∧ (∀ req1 req2,
       sentBy env (NewJiraClient env cfg1) req1 →
       sentBy env (NewJiraClient env cfg2) req2 →
       usesBasicAuth req1 = usesBasicAuth req2).
Proof.
  intros Hurl.
  assert (Hsame : isCloud (NewJiraClient env cfg1) = isCloud (NewJiraClient env cfg2))
    by (rewrite !isCloud_NewJiraClient; now rewrite Hurl).
  split; [exact Hsame|]. split.
  - unfold getBaseAPIPath. now rewrite Hsame.
  - intros req1 req2 H1%sentBy_scheme H2%sentBy_scheme. congruence.
Qed.

Lemma variant_depends_on_url_only_witness :
  isCloud (NewJiraClient (stubEnv 200 (Ok JNull)) cloudConfig)
  = isCloud (NewJiraClient (stubEnv 200 (Ok JNull))
               {| JiraConfig.URL := "https://acme.Atlassian.NET";
                  JiraConfig.APIKey := "another token";
                  JiraConfig.Email := "ops@example.com" |}).
Proof.
  exact (proj1 (variant_depends_on_url_only (stubEnv 200 (Ok JNull)) cloudConfig
                  {| JiraConfig.URL := "https://acme.Atlassian.NET";
                     JiraConfig.APIKey := "another token";
                     JiraConfig.Email := "ops@example.com" |} eq_refl)).
Defined.

(** ** The payloads *)

Lemma updateIssue_sends (env : Env) (c : JiraClient) (args : UpdateIssueArgs.t) :
  newRequestError env "PUT"
    (JiraConfig.URL (config c) +:+ getBaseAPIPath c +:+ "/issue/"
     +:+ UpdateIssueArgs.IssueKey args) = None →
  ∃ req, (updateIssue env c args).1 = [req].
Proof.
  intros Hnew. unfold updateIssue, Marshal, NewRequest. rewrite Hnew. simpl. eauto.
Qed.

(** C4: the body of the update request is the document
    [{"fields": {...}}] whose members are exactly the non-empty ones of
    description and summary.  With only the summary set it is
    [{"fields":{"summary":v}}]; with both empty it is [{"fields":{}}], and that
    request is still sent whenever [http.NewRequest] accepts the URL. *)
Theorem update_payload (env : Env) (c : JiraClient) (args : UpdateIssueArgs.t) :
  (∀ req, req ∈ (updateIssue env c args).1 →
     http.Body req
     = Some (writeJSON env
               (JObj [("fields",
                       JObj (optionalMember "description" (UpdateIssueArgs.Description args)
                             ++ optionalMember "summary" (UpdateIssueArgs.Summary args)))]))
     ∧ (UpdateIssueArgs.Summary args ≠ "" → UpdateIssueArgs.Description args = "" →
          http.Body req
          = Some (writeJSON env
                    (JObj [("fields", JObj [("summary", JStr (UpdateIssueArgs.Summary args))])])))
     ∧ (UpdateIssueArgs.Summary args = "" → UpdateIssueArgs.Description args = "" →
          http.Body req = Some (writeJSON env (JObj [("fields", JObj [])]))))
  ∧ (newRequestError env "PUT"
       (JiraConfig.URL (config c) +:+ getBaseAPIPath c +:+ "/issue/"
        +:+ UpdateIssueArgs.IssueKey args) = None →
     ∃ req, (updateIssue env c args).1 = [req]).
Proof.
  split; [|apply updateIssue_sends].
  intros req Hreq. apply updateIssue_body in Hreq. rewrite Hreq.
  unfold updateDocument, optionalMember.
  split; [reflexivity|]. split.
  - intros Hs ->. apply String.eqb_neq in Hs. now rewrite Hs.
  - now intros -> ->.
Qed.

Lemma update_payload_witness :
  ∃ req, (updateIssue (stubEnv 204 (Ok JNull))
            (NewJiraClient (stubEnv 204 (Ok JNull)) dataCenterConfig)
            {| UpdateIssueArgs.JiraConfig := dataCenterConfig;
               UpdateIssueArgs.IssueKey := "PROJ-1";
               UpdateIssueArgs.Summary := "";
               UpdateIssueArgs.Description := "" |}).1 = [req].
Proof.
  exact (proj2 (update_payload (stubEnv 204 (Ok JNull))
                  (NewJiraClient (stubEnv 204 (Ok JNull)) dataCenterConfig)
                  {| UpdateIssueArgs.JiraConfig := dataCenterConfig;
                     UpdateIssueArgs.IssueKey := "PROJ-1";
                     UpdateIssueArgs.Summary := "";
                     UpdateIssueArgs.Description := "" |}) eq_refl).
Defined.

(** C9: the body of the create request always has a "description" member
    under "fields", holding the description as given; for the empty
    description the member is the empty string, where the update payload
    has no such member. *)
Theorem create_payload_has_description (env : Env) (c : JiraClient)
    (args : CreateIssueArgs.t) (req : http.Request) :
  req ∈ (createIssue env c args).1 →
  http.Body req
  = Some (writeJSON env
            (JObj [("fields",
                    JObj [("description", JStr (CreateIssueArgs.Description args));
                          ("issuetype", JObj [("name", JStr (CreateIssueArgs.IssueType args))]);
                          ("project", JObj [("key", JStr (CreateIssueArgs.ProjectKey args))]);
                          ("summary", JStr (CreateIssueArgs.Summary args))])]))
  ∧ (CreateIssueArgs.Description args = "" →
     http.Body req
     = Some (writeJSON env
               (JObj [("fields",
                       JObj [("description", JStr "");
                             ("issuetype", JObj [("name", JStr (CreateIssueArgs.IssueType args))]);
                             ("project", JObj [("key", JStr (CreateIssueArgs.ProjectKey args))]);
                             ("summary", JStr (CreateIssueArgs.Summary args))])]))).
Proof.
  intros Hreq. apply createIssue_body in Hreq. rewrite Hreq. unfold createDocument.
  split; [reflexivity|]. now intros ->.
Qed.

Lemma create_payload_has_description_witness :
  ∃ req, req ∈ (createIssue (stubEnv 201 (Ok JNull))
                  (NewJiraClient (stubEnv 201 (Ok JNull)) cloudConfig)
                  {| CreateIssueArgs.JiraConfig := cloudConfig;
                     CreateIssueArgs.ProjectKey := "PROJ";
                     CreateIssueArgs.Summary := "Title";
                     CreateIssueArgs.Description := "";
                     CreateIssueArgs.IssueType := "Task" |}).1
         ∧ http.Body req = Some "".
Proof.
  eexists. split; [apply list_elem_of_here|].
  exact (proj1 (create_payload_has_description (stubEnv 201 (Ok JNull))
                  (NewJiraClient (stubEnv 201 (Ok JNull)) cloudConfig)
                  {| CreateIssueArgs.JiraConfig := cloudConfig;
                     CreateIssueArgs.ProjectKey := "PROJ";
                     CreateIssueArgs.Summary := "Title";
                     CreateIssueArgs.Description := "";
                     CreateIssueArgs.IssueType := "Task" |} _
                  (list_elem_of_here _ _))).
Defined.

(** ** Reading the response *)

Lemma lookup_members (name : string) (ms : list (string * json)) (m : gmap string json) :
  foldl (λ m kv, <[fst kv := snd kv]> m) m ms !! name
  = match lastMember name ms with
    | Some v => Some v
    | None => m !! name
    end.
Proof.
  revert m. induction ms as [|[k v] ms IH]; intros m; simpl; [reflexivity|].
  rewrite IH. destruct (lastMember name ms); [reflexivity|].
  destruct (String.eqb_spec k name) as [->|Hne].
  - apply lookup_insert_eq.
  - now apply lookup_insert_ne.
Qed.

(** The status code can be read back from a status error. *)
Lemma status_error_inj (prefix : string) (n m : Z) :
  prefix +:+ pretty n = prefix +:+ pretty m → n = m.
Proof. intros H. apply String.app_inj in H. now apply pretty_Z_inj in H. Qed.

Lemma createIssue_answered (env : Env) (c : JiraClient) (args : CreateIssueArgs.t)
    (req : http.Request) (resp : http.Response) :
  (createIssue env c args).1 = [req] →
  roundTrip env (http.Timeout (httpClient c)) req = Ok resp →
  (createIssue env c args).2
  = if negb (http.StatusCode resp =? 201)
    then Err ("failed to create issue, status: " +:+ pretty (http.StatusCode resp))
    else match Decode env (decodeMap env) (http.RespBody resp) with
         | Err err => Err ("failed to decode response: " +:+ err)
         | Ok result =>
             match result !! "key" with
             | Some (JStr issueKey) => Ok issueKey
             | _ => Err "issue key not found in response"
             end
         end.
Proof.
  unfold createIssue, Marshal, NewRequest, Do.
  destruct (newRequestError env _ _); simpl; [discriminate|].
  intros [= <-] Hrt. now rewrite Hrt.
Qed.

(** C3: once the create request is sent and answered, the operation
    succeeds only on status 201; any other status gives the status error
    with the code in decimal, whatever the body; on 201 a body that does not
    decode gives a decoding error, a decoded object gives the string under
    its (last) "key" member, and an object without such a string, or the
    document [null], gives the error "issue key not found in response". *)
Theorem createIssue_result (env : Env) (c : JiraClient) (args : CreateIssueArgs.t)
    (req : http.Request) (resp : http.Response) :
  (createIssue env c args).1 = [req] →
  roundTrip env (http.Timeout (httpClient c)) req = Ok resp →
  (http.StatusCode resp ≠ 201 →
     (createIssue env c args).2
     = Err ("failed to create issue, status: " +:+ pretty (http.StatusCode resp))
     ∧ ∀ n, (createIssue env c args).2
            = Err ("failed to create issue, status: " +:+ pretty n) →
            n = http.StatusCode resp)
  ∧ (is_ok (createIssue env c args).2 = true → http.StatusCode resp = 201)
  ∧ (http.StatusCode resp = 201 →
       (∀ err, readJSON env (http.RespBody resp) = Err err →
          (createIssue env c args).2 = Err ("failed to decode response: " +:+ err))
       ∧ (∀ ms, readJSON env (http.RespBody resp) = Ok (JObj ms) →
            interfaceError env (JObj ms) = None →
            match lastMember "key" ms with
            | Some (JStr issueKey) => (createIssue env c args).2 = Ok issueKey
            | _ => (createIssue env c args).2 = Err "issue key not found in response"
            end)
       ∧ (readJSON env (http.RespBody resp) = Ok JNull →
            (createIssue env c args).2 = Err "issue key not found in response")).
Proof.
  intros Hsent Hrt. rewrite (createIssue_answered _ _ _ _ _ Hsent Hrt).
  destruct (Z.eqb_spec (http.StatusCode resp) 201) as [H201|Hne]; simpl.
  - split; [intros H; contradiction|]. split; [intros _; exact H201|]. intros _.
    unfold Decode. split; [|split].
    + now intros err ->.
    + intros ms -> Hnum. simpl in Hnum. simpl. rewrite Hnum.
      rewrite lookup_members, lookup_empty.
      destruct (lastMember "key" ms) as [[]|]; reflexivity.
    + now intros ->.
  - split; [|split; [discriminate | intros H; contradiction]].
    intros _. split; [reflexivity|].
    intros n [= H]. symmetry. exact (status_error_inj _ _ _ H).
Qed.

Lemma createIssue_result_witness :
  (createIssue (stubEnv 201 (Ok (JObj [("id", JStr "10000"); ("key", JStr "PROJ-123")])))
     (NewJiraClient (stubEnv 201 (Ok JNull)) cloudConfig)
     {| CreateIssueArgs.JiraConfig := cloudConfig;
        CreateIssueArgs.ProjectKey := "PROJ";
        CreateIssueArgs.Summary := "Title";
        CreateIssueArgs.Description := "Text";
        CreateIssueArgs.IssueType := "Task" |}).2 = Ok "PROJ-123".
Proof.
  set (doc := JObj [("id", JStr "10000"); ("key", JStr "PROJ-123")]).
  set (env := stubEnv 201 (Ok doc)).
  set (c := NewJiraClient (stubEnv 201 (Ok JNull)) cloudConfig).
  set (args := {| CreateIssueArgs.JiraConfig := cloudConfig;
                  CreateIssueArgs.ProjectKey := "PROJ";
                  CreateIssueArgs.Summary := "Title";
                  CreateIssueArgs.Description := "Text";
                  CreateIssueArgs.IssueType := "Task" |}).
  exact (proj1 (proj2 (proj2 (proj2
           (createIssue_result env c args _
              {| http.StatusCode := 201; http.RespBody := "" |} eq_refl eq_refl))
           eq_refl))
           [("id", JStr "10000"); ("key", JStr "PROJ-123")] eq_refl eq_refl).
Defined.

Lemma updateIssue_answered (env : Env) (c : JiraClient) (args : UpdateIssueArgs.t)
    (req : http.Request) (resp : http.Response) :
  (updateIssue env c args).1 = [req] →
  roundTrip env (http.Timeout (httpClient c)) req = Ok resp →
  (updateIssue env c args).2
  = if negb (http.StatusCode resp =? 204) && negb (http.StatusCode resp =? 200)
    then Err ("failed to update issue, status: " +:+ pretty (http.StatusCode resp))
    else Ok (UpdateIssueArgs.IssueKey args).
Proof.
  unfold updateIssue, Marshal, NewRequest, Do.
  destruct (newRequestError env _ _); simpl; [discriminate|].
  intros [= <-] Hrt. now rewrite Hrt.
Qed.

(** C5: once the update request is sent and answered, the operation
    succeeds exactly on status 200 or 204 and then returns the issue key it
    was given; any other status gives the status error with the code in
    decimal.  The body of the response plays no part. *)
Theorem updateIssue_result (env : Env) (c : JiraClient) (args : UpdateIssueArgs.t)
    (req : http.Request) (resp : http.Response) :
  (updateIssue env c args).1 = [req] →
  roundTrip env (http.Timeout (httpClient c)) req = Ok resp →
  (is_ok (updateIssue env c args).2 = true
   ↔ http.StatusCode resp = 200 ∨ http.StatusCode resp = 204)
  ∧ (http.StatusCode resp = 200 ∨ http.StatusCode resp = 204 →
       (updateIssue env c args).2 = Ok (UpdateIssueArgs.IssueKey args))
  ∧ (http.StatusCode resp ≠ 200 → http.StatusCode resp ≠ 204 →
       (updateIssue env c args).2
       = Err ("failed to update issue, status: " +:+ pretty (http.StatusCode resp))
       ∧ ∀ n, (updateIssue env c args).2
              = Err ("failed to update issue, status: " +:+ pretty n) →
              n = http.StatusCode resp).
Proof.
  intros Hsent Hrt. rewrite (updateIssue_answered _ _ _ _ _ Hsent Hrt).
  destruct (Z.eqb_spec (http.StatusCode resp) 204) as [H204|H204],
           (Z.eqb_spec (http.StatusCode resp) 200) as [H200|H200]; simpl.
  1-3: repeat split; try tauto; try discriminate; try reflexivity; intros; lia.
  split; [split; [discriminate | tauto]|].
  split; [tauto|]. intros _ _. split; [reflexivity|].
  intros n [= H]. symmetry. exact (status_error_inj _ _ _ H).
Qed.

Lemma updateIssue_result_witness :
  (updateIssue (stubEnv 204 (Err "EOF"))
     (NewJiraClient (stubEnv 204 (Err "EOF")) dataCenterConfig)
     {| UpdateIssueArgs.JiraConfig := dataCenterConfig;
        UpdateIssueArgs.IssueKey := "PROJ-7";
        UpdateIssueArgs.Summary := "New title";
        UpdateIssueArgs.Description := "" |}).2 = Ok "PROJ-7".
Proof.
  exact (proj1 (proj2
           (updateIssue_result (stubEnv 204 (Err "EOF"))
              (NewJiraClient (stubEnv 204 (Err "EOF")) dataCenterConfig)
              {| UpdateIssueArgs.JiraConfig := dataCenterConfig;
                 UpdateIssueArgs.IssueKey := "PROJ-7";
                 UpdateIssueArgs.Summary := "New title";
                 UpdateIssueArgs.Description := "" |} _
              {| http.StatusCode := 204; http.RespBody := "" |} eq_refl eq_refl))
           (or_intror eq_refl)).
Defined.

(** ** The search response *)

Lemma decode_issueDocument (env : Env) (ks : string * string) :
  decodeStruct env (storeIssue env) "struct" SearchResult.zeroIssue (issueDocument ks)
  = Ok (issueOf ks).
Proof. reflexivity. Qed.

Lemma decode_issueDocuments (env : Env) (l : list (string * string)) :
  decodeElems (decodeStruct env (storeIssue env) "struct") SearchResult.zeroIssue []
    (map issueDocument l)
  = Ok (map issueOf l).
Proof.
  induction l as [|ks l IH]; [reflexivity|].
  cbn [map decodeElems hd tl]. now rewrite decode_issueDocument, IH.
Qed.

Lemma decode_searchDocument (env : Env) (l : list (string * string)) :
  decodeSearchResult env (searchDocument l) = Ok {| SearchResult.Issues := map issueOf l |}.
Proof.
  unfold decodeSearchResult, searchDocument, decodeStruct at 1.
  cbn [foldl fst snd]. unfold storeResult.
  replace (json_.matchField "issues" "issues") with true by reflexivity.
  cbn [SearchResult.Issues SearchResult.zero app fst snd].
  destruct l as [|ks l]; [reflexivity|].
  change (map issueDocument (ks :: l)) with (issueDocument ks :: map issueDocument l).
  cbn [decodeSlice].
  change (issueDocument ks :: map issueDocument l) with (map issueDocument (ks :: l)).
  now rewrite decode_issueDocuments.
Qed.

(** An object none of whose members selects the field [issues] leaves the
    result as it was. *)
Lemma decode_without_issues (env : Env) (ms : list (string * json))
    (st : SearchResult.t * list SearchResult.issue) :
  (∀ kv, kv ∈ ms → json_.matchField "issues" (fst kv) = false) →
  foldl (λ acc kv, match acc with
                   | Ok st => storeResult env st (fst kv) (snd kv)
                   | Err err => Err err
                   end) (Ok st) ms = Ok st.
Proof.
  induction ms as [|kv ms IH]; intros Hms; [reflexivity|].
  cbn [foldl]. unfold storeResult at 2.
  rewrite (Hms kv) by apply list_elem_of_here.
  apply IH. intros kv' Hin. apply Hms. now apply list_elem_of_further.
Qed.

Lemma searchIssues_answered (env : Env) (c : JiraClient) (args : SearchIssuesArgs.t)
    (req : http.Request) (resp : http.Response) :
  (searchIssues env c args).1 = [req] →
  roundTrip env (http.Timeout (httpClient c)) req = Ok resp →
  (searchIssues env c args).2
  = if negb (http.StatusCode resp =? 200)
    then Err ("failed to search issues, status: " +:+ pretty (http.StatusCode resp))
    else match Decode env (decodeSearchResult env) (http.RespBody resp) with
         | Err err => Err ("failed to decode response: " +:+ err)
         | Ok result =>
             Ok (map (λ issue, issueView (SearchResult.Key issue,
                                          SearchResult.Summary (SearchResult.Fields issue)))
                   (SearchResult.Issues result))
         end.
Proof.
  unfold searchIssues, NewRequest, Do.
  destruct (newRequestError env _ _); simpl; [discriminate|].
  intros [= <-] Hrt. now rewrite Hrt.
Qed.

(** C6: once the search request is sent and answered, the operation
    succeeds only on status 200; any other status gives the status error
    with the code in decimal.  On 200 the list returned has one
    {key, summary} pair per decoded issue, in order; for a body listing
    issues by "key" and "fields"."summary" these are the listed pairs; and an
    object without an "issues" member gives the empty list, not an error. *)
Theorem searchIssues_result (env : Env) (c : JiraClient) (args : SearchIssuesArgs.t)
    (req : http.Request) (resp : http.Response) :
  (searchIssues env c args).1 = [req] →
  roundTrip env (http.Timeout (httpClient c)) req = Ok resp →
  (http.StatusCode resp ≠ 200 →
     (searchIssues env c args).2
     = Err ("failed to search issues, status: " +:+ pretty (http.StatusCode resp))
     ∧ ∀ n, (searchIssues env c args).2
            = Err ("failed to search issues, status: " +:+ pretty n) →
            n = http.StatusCode resp)
  ∧ (is_ok (searchIssues env c args).2 = true → http.StatusCode resp = 200)
  ∧ (http.StatusCode resp = 200 →
       (∀ result, Decode env (decodeSearchResult env) (http.RespBody resp) = Ok result →
          (searchIssues env c args).2
          = Ok (map (λ issue, {[ "key" := SearchResult.Key issue;
                                 "summary" := SearchResult.Summary (SearchResult.Fields issue) ]})
                  (SearchResult.Issues result)))
       ∧ (∀ l, readJSON env (http.RespBody resp) = Ok (searchDocument l) →
            (searchIssues env c args).2 = Ok (map issueView l))
       ∧ (∀ ms, readJSON env (http.RespBody resp) = Ok (JObj ms) →
            (∀ kv, kv ∈ ms → json_.matchField "issues" (fst kv) = false) →
            (searchIssues env c args).2 = Ok [])).
Proof.
  intros Hsent Hrt. rewrite (searchIssues_answered _ _ _ _ _ Hsent Hrt).
  destruct (Z.eqb_spec (http.StatusCode resp) 200) as [H200|Hne]; simpl.
  - split; [intros H; contradiction|]. split; [intros _; exact H200|]. intros _.
    split; [|split].
    + now intros result ->.
    + intros l Hread. unfold Decode. rewrite Hread, decode_searchDocument.
      cbn [SearchResult.Issues]. rewrite map_map. f_equal.
    + intros ms Hread Hms. unfold Decode. rewrite Hread.
      unfold decodeSearchResult, decodeStruct.
      now rewrite (decode_without_issues env ms (SearchResult.zero, []) Hms).
  - split; [|split; [discriminate | intros H; contradiction]].
    intros _. split; [reflexivity|].
    intros n [= H]. symmetry. exact (status_error_inj _ _ _ H).
Qed.

Lemma searchIssues_result_witness :
  (searchIssues (stubEnv 200 (Ok (searchDocument [("A-1", "S1")])))
     (NewJiraClient (stubEnv 200 (Ok JNull)) cloudConfig)
     {| SearchIssuesArgs.JiraConfig := cloudConfig;
        SearchIssuesArgs.JQL := "project = A" |}).2
  = Ok [issueView ("A-1", "S1")].
Proof.
  exact (proj1 (proj2 (proj2 (proj2
           (searchIssues_result (stubEnv 200 (Ok (searchDocument [("A-1", "S1")])))
              (NewJiraClient (stubEnv 200 (Ok JNull)) cloudConfig)
              {| SearchIssuesArgs.JiraConfig := cloudConfig;
                 SearchIssuesArgs.JQL := "project = A" |} _
              {| http.StatusCode := 200; http.RespBody := "" |} eq_refl eq_refl))
           eq_refl))
           [("A-1", "S1")] eq_refl).
Defined.

(** ** The tool handlers and the capability resource *)

(** Each operation hands the HTTP client at most one request. *)
Lemma createIssue_one_request (env : Env) (c : JiraClient) (args : CreateIssueArgs.t) :
  (length (createIssue env c args).1 ≤ 1)%nat.
Proof.
  unfold createIssue, Marshal, NewRequest.
  destruct (newRequestError env _ _); simpl; lia.
Qed.

Lemma updateIssue_one_request (env : Env) (c : JiraClient) (args : UpdateIssueArgs.t) :
  (length (updateIssue env c args).1 ≤ 1)%nat.
Proof.
  unfold updateIssue, Marshal, NewRequest.
  destruct (newRequestError env _ _); simpl; lia.
Qed.

Lemma searchIssues_one_request (env : Env) (c : JiraClient) (args : SearchIssuesArgs.t) :
  (length (searchIssues env c args).1 ≤ 1)%nat.
Proof.
  unfold searchIssues, NewRequest.
  destruct (newRequestError env _ _); simpl; lia.
Qed.

(** C7: when the client operation returns an error, each of the three
    handlers returns that very error; and a handler hands the HTTP client
    what its one client call does, at most one request: nothing is wrapped,
    replaced, recovered or sent again. *)
Theorem handlers_propagate_errors (env : Env) :
  (∀ args err,
     (createIssue env (NewJiraClient env (CreateIssueArgs.JiraConfig args)) args).2 = Err err →
     (create_issue env args).2 = Err err)
  ∧ (∀ args err,
     (updateIssue env (NewJiraClient env (UpdateIssueArgs.JiraConfig args)) args).2 = Err err →
     (update_issue env args).2 = Err err)
  ∧ (∀ args err,
     (searchIssues env (NewJiraClient env (SearchIssuesArgs.JiraConfig args)) args).2 = Err err →
     (search_issues env args).2 = Err err)
  ∧ (∀ args,
     (create_issue env args).1
     = (createIssue env (NewJiraClient env (CreateIssueArgs.JiraConfig args)) args).1
     ∧ (length (create_issue env args).1 ≤ 1)%nat)
  ∧ (∀ args,
     (update_issue env args).1
     = (updateIssue env (NewJiraClient env (UpdateIssueArgs.JiraConfig args)) args).1
     ∧ (length (update_issue env args).1 ≤ 1)%nat)
  ∧ (∀ args,
     (search_issues env args).1
     = (searchIssues env (NewJiraClient env (SearchIssuesArgs.JiraConfig args)) args).1
     ∧ (length (search_issues env args).1 ≤ 1)%nat).
Proof.
  assert (Hc : ∀ args, (create_issue env args).1
     = (createIssue env (NewJiraClient env (CreateIssueArgs.JiraConfig args)) args).1)
    by (intros args; unfold create_issue; now destruct (createIssue _ _ _)).
  assert (Hu : ∀ args, (update_issue env args).1
     = (updateIssue env (NewJiraClient env (UpdateIssueArgs.JiraConfig args)) args).1)
    by (intros args; unfold update_issue; now destruct (updateIssue _ _ _)).
  assert (Hs : ∀ args, (search_issues env args).1
     = (searchIssues env (NewJiraClient env (SearchIssuesArgs.JiraConfig args)) args).1)
    by (intros args; unfold search_issues; now destruct (searchIssues _ _ _)).
  split; [|split; [|split; [|split; [|split]]]].
  - intros args err. unfold create_issue.
    destruct (createIssue _ _ _) as [sent r]. simpl. now intros ->.
  - intros args err. unfold update_issue.
    destruct (updateIssue _ _ _) as [sent r]. simpl. now intros ->.
  - intros args err. unfold search_issues.
    destruct (searchIssues _ _ _) as [sent r]. simpl. now intros ->.
  - intros args. split; [apply Hc|]. rewrite Hc. apply createIssue_one_request.
  - intros args. split; [apply Hu|]. rewrite Hu. apply updateIssue_one_request.
  - intros args. split; [apply Hs|]. rewrite Hs. apply searchIssues_one_request.
Qed.

Lemma handlers_propagate_errors_witness :
  (create_issue (stubEnv 400 (Ok JNull))
     {| CreateIssueArgs.JiraConfig := cloudConfig;
        CreateIssueArgs.ProjectKey := "PROJ";
        CreateIssueArgs.Summary := "Title";
        CreateIssueArgs.Description := "";
        CreateIssueArgs.IssueType := "Task" |}).2
  = Err "failed to create issue, status: 400".
Proof.
  exact (proj1 (handlers_propagate_errors (stubEnv 400 (Ok JNull)))
           {| CreateIssueArgs.JiraConfig := cloudConfig;
              CreateIssueArgs.ProjectKey := "PROJ";
              CreateIssueArgs.Summary := "Title";
              CreateIssueArgs.Description := "";
              CreateIssueArgs.IssueType := "Task" |}
           "failed to create issue, status: 400" eq_refl).
Defined.

(** C8: reading the resource "info://server" takes no input, never returns
    an error, and always yields the same JSON text: the document with the
    server name, the version, and the actions create_issue, update_issue,
    search_issues in this order. *)
Theorem info_server_constant (env : Env) (u : unit) :
  info_server env u
  = Ok (mcp_golang.NewResourceResponse
          [mcp_golang.NewTextEmbeddedResource "info://server"
             (writeJSON env
                (JObj [("actions", JArr [JStr "create_issue";
                                         JStr "update_issue";
                                         JStr "search_issues"]);
                       ("name", JStr ServerName);
                       ("version", JStr ServerVersion)]))
             "application/json"])
  ∧ is_ok (info_server env u) = true
  ∧ (∀ u', info_server env u' = info_server env u).
Proof.
  split; [reflexivity|]. split; [reflexivity|].
  intros u'. now destruct u, u'.
Qed.

(** ** Further properties: failures before an answer *)

(** X1: when [http.NewRequest] refuses the URL, each operation returns the
    error "failed to create request: ..." and hands nothing to the HTTP
    client; when it accepts the URL, exactly one request is handed over. *)
Theorem refused_url_sends_nothing (env : Env) (c : JiraClient) :
  (∀ args,
     match newRequestError env "POST"
             (JiraConfig.URL (config c) +:+ getBaseAPIPath c +:+ "/issue") with
     | Some err => createIssue env c args = ([], Err ("failed to create request: " +:+ err))
     | None => length (createIssue env c args).1 = 1%nat
     end)
  ∧ (∀ args,
     match newRequestError env "PUT"
             (JiraConfig.URL (config c) +:+ getBaseAPIPath c +:+ "/issue/"
              +:+ UpdateIssueArgs.IssueKey args) with
     | Some err => updateIssue env c args = ([], Err ("failed to create request: " +:+ err))
     | None => length (updateIssue env c args).1 = 1%nat
     end)
  ∧ (∀ args,
     match newRequestError env "GET"
             (JiraConfig.URL (config c) +:+ getBaseAPIPath c +:+ "/search?jql="
              +:+ SearchIssuesArgs.JQL args +:+ "&fields=summary") with
     | Some err => searchIssues env c args = ([], Err ("failed to create request: " +:+ err))
     | None => length (searchIssues env c args).1 = 1%nat
     end).
Proof.
  split; [|split]; intros args.
  - unfold createIssue, Marshal, NewRequest.
    now destruct (newRequestError env _ _).
  - unfold updateIssue, Marshal, NewRequest.
    now destruct (newRequestError env _ _).
  - unfold searchIssues, NewRequest.
    now destruct (newRequestError env _ _).
Qed.

(** X2: when the request was handed over and the HTTP client returns an
    error (no connection, timeout), each operation returns the error
    "failed to send request: ..." around the client's message. *)
Theorem transport_failure (env : Env) (c : JiraClient) (req : http.Request) (err : string) :
  roundTrip env (http.Timeout (httpClient c)) req = Err err →
  (∀ args, (createIssue env c args).1 = [req] →
     (createIssue env c args).2 = Err ("failed to send request: " +:+ err))
  ∧ (∀ args, (updateIssue env c args).1 = [req] →
     (updateIssue env c args).2 = Err ("failed to send request: " +:+ err))
  ∧ (∀ args, (searchIssues env c args).1 = [req] →
     (searchIssues env c args).2 = Err ("failed to send request: " +:+ err)).
Proof.
  intros Hrt. split; [|split]; intros args.
  - unfold createIssue, Marshal, NewRequest, Do.
    destruct (newRequestError env _ _); simpl; [discriminate|].
    intros [= <-]. now rewrite Hrt.
  - unfold updateIssue, Marshal, NewRequest, Do.
    destruct (newRequestError env _ _); simpl; [discriminate|].
    intros [= <-]. now rewrite Hrt.
  - unfold searchIssues, NewRequest, Do.
    destruct (newRequestError env _ _); simpl; [discriminate|].
    intros [= <-]. now rewrite Hrt.
Qed.

Lemma transport_failure_witness :
  (searchIssues offlineEnv (NewJiraClient offlineEnv dataCenterConfig)
     (sampleSearch dataCenterConfig)).2
  = Err "failed to send request: dial tcp: connection refused".
Proof.
  exact (proj2 (proj2 (transport_failure offlineEnv
                         (NewJiraClient offlineEnv dataCenterConfig) _
                         "dial tcp: connection refused" eq_refl))
           (sampleSearch dataCenterConfig) eq_refl).
Defined.

Lemma HasPrefix_append (prefix rest : string) :
  strings.HasPrefix (prefix +:+ rest) prefix = true.
Proof. apply HasPrefix_spec. now exists rest. Qed.

(** Closes a goal [existsb (HasPrefix (p +:+ e)) [...; p; ...] = true]. *)
Ltac known_prefix :=
  cbn [existsb]; rewrite HasPrefix_append; cbn [orb]; rewrite ?orb_true_r; reflexivity.

(** X3: the errors of the three operations are of the kinds in the source
    and no other: request construction, transport, status, decoding, and for
    create the missing key.  The error "failed to marshal payload" is never
    returned. *)
Theorem error_taxonomy (env : Env) (c : JiraClient) (err : string) :
  (∀ args, (createIssue env c args).2 = Err err →
     existsb (strings.HasPrefix err)
       ["failed to create request: "; "failed to send request: ";
        "failed to create issue, status: "; "failed to decode response: ";
        "issue key not found in response"] = true
     ∧ strings.HasPrefix err "failed to marshal payload: " = false)
  ∧ (∀ args, (updateIssue env c args).2 = Err err →
     existsb (strings.HasPrefix err)
       ["failed to create request: "; "failed to send request: ";
        "failed to update issue, status: "] = true
     ∧ strings.HasPrefix err "failed to marshal payload: " = false)
  ∧ (∀ args, (searchIssues env c args).2 = Err err →
     existsb (strings.HasPrefix err)
       ["failed to create request: "; "failed to send request: ";
        "failed to search issues, status: "; "failed to decode response: "] = true).
Proof.
  split; [|split]; intros args.
  - unfold createIssue, Marshal, NewRequest, Do.
    destruct (newRequestError env _ _); simpl fst; simpl snd.
    { intros [= <-]. split; [known_prefix | reflexivity]. }
    destruct (roundTrip env _ _) as [resp|e].
    2:{ intros [= <-]. split; [known_prefix | reflexivity]. }
    destruct (negb _).
    { intros [= <-]. split; [known_prefix | reflexivity]. }
    destruct (Decode _ _ _) as [m|e].
    2:{ intros [= <-]. split; [known_prefix | reflexivity]. }
    destruct (m !! "key") as [[]|]; intros [= <-]; split; reflexivity.
  - unfold updateIssue, Marshal, NewRequest, Do.
    destruct (newRequestError env _ _); simpl fst; simpl snd.
    { intros [= <-]. split; [known_prefix | reflexivity]. }
    destruct (roundTrip env _ _) as [resp|e].
    2:{ intros [= <-]. split; [known_prefix | reflexivity]. }
    destruct (_ && _); [|discriminate].
    intros [= <-]. split; [known_prefix | reflexivity].
  - unfold searchIssues, NewRequest, Do.
    destruct (newRequestError env _ _); simpl fst; simpl snd.
    { intros [= <-]. known_prefix. }
    destruct (roundTrip env _ _) as [resp|e].
    2:{ intros [= <-]. known_prefix. }
    destruct (negb _).
    { intros [= <-]. known_prefix. }
    destruct (Decode _ _ _) as [m|e]; [discriminate|].
    intros [= <-]. known_prefix.
Qed.

Lemma error_taxonomy_witness :
  strings.HasPrefix "failed to send request: dial tcp: connection refused"
    "failed to marshal payload: " = false.
Proof.
  exact (proj2 (proj1 (error_taxonomy offlineEnv (NewJiraClient offlineEnv cloudConfig)
                         "failed to send request: dial tcp: connection refused")
                  (sampleCreate cloudConfig) eq_refl)).
Defined.

(** ** Further properties: the request line and the timeout *)

(** X4: once [http.NewRequest] has accepted the URL, createIssue hands over
    one request, POST to base+prefix+"/issue" with a body; updateIssue one
    request, PUT to base+prefix+"/issue/"+key with a body; searchIssues one
    request, GET to base+prefix+"/search?jql="+JQL+"&fields=summary" without
    a body.  The issue key and the JQL enter the URL byte for byte, without
    escaping.  No operation sends a request of another form. *)
Theorem request_targets (env : Env) (c : JiraClient) :
  (∀ args,
     (newRequestError env "POST"
        (JiraConfig.URL (config c) +:+ getBaseAPIPath c +:+ "/issue") = None →
      ∃ req, (createIssue env c args).1 = [req])
     ∧ ∀ req, req ∈ (createIssue env c args).1 →
         http.Method req = "POST"
         ∧ http.URL req = JiraConfig.URL (config c) +:+ getBaseAPIPath c +:+ "/issue"
         ∧ is_Some (http.Body req))
  ∧ (∀ args,
     (newRequestError env "PUT"
        (JiraConfig.URL (config c) +:+ getBaseAPIPath c +:+ "/issue/"
         +:+ UpdateIssueArgs.IssueKey args) = None →
      ∃ req, (updateIssue env c args).1 = [req])
     ∧ ∀ req, req ∈ (updateIssue env c args).1 →
         http.Method req = "PUT"
         ∧ http.URL req = JiraConfig.URL (config c) +:+ getBaseAPIPath c +:+ "/issue/"
                          +:+ UpdateIssueArgs.IssueKey args
         ∧ is_Some (http.Body req))
  ∧ (∀ args,
     (newRequestError env "GET"
        (JiraConfig.URL (config c) +:+ getBaseAPIPath c +:+ "/search?jql="
         +:+ SearchIssuesArgs.JQL args +:+ "&fields=summary") = None →
      ∃ req, (searchIssues env c args).1 = [req])
     ∧ ∀ req, req ∈ (searchIssues env c args).1 →
         http.Method req = "GET"
         ∧ http.URL req = JiraConfig.URL (config c) +:+ getBaseAPIPath c +:+ "/search?jql="
                          +:+ SearchIssuesArgs.JQL args +:+ "&fields=summary"
         ∧ http.Body req = None).
Proof.
  destruct (accepted_request_sent env c) as (Hc & Hu & Hs).
  split; [|split]; intros args; (split; [auto|]); intros req Hreq.
  - pose proof (createIssue_body _ _ _ _ Hreq) as Hbody.
    apply createIssue_sent in Hreq as (Hm & Hu' & _).
    rewrite Hbody. eauto.
  - pose proof (updateIssue_body _ _ _ _ Hreq) as Hbody.
    apply updateIssue_sent in Hreq as (Hm & Hu' & _).
    rewrite Hbody. eauto.
  - apply searchIssues_sent in Hreq as (Hm & Hu' & _ & Hbody). eauto.
Qed.

Lemma request_targets_witness :
  (∃ req, (createIssue (stubEnv 201 (Ok JNull))
             (NewJiraClient (stubEnv 201 (Ok JNull)) cloudConfig)
             (sampleCreate cloudConfig)).1 = [req]
          ∧ http.Method req = "POST"
          ∧ http.URL req = "https://acme.Atlassian.NET/rest/api/3/issue")
  ∧ (∃ req, (updateIssue (stubEnv 204 (Ok JNull))
               (NewJiraClient (stubEnv 204 (Ok JNull)) dataCenterConfig)
               (sampleUpdate dataCenterConfig)).1 = [req]
            ∧ http.Method req = "PUT"
            ∧ http.URL req = "https://jira.example.com/rest/api/2/issue/PROJ-7")
  ∧ (∃ req, (searchIssues (stubEnv 200 (Ok JNull))
               (NewJiraClient (stubEnv 200 (Ok JNull)) dataCenterConfig)
               (sampleSearch dataCenterConfig)).1 = [req]
            ∧ http.Method req = "GET"
            ∧ http.URL req
              = "https://jira.example.com/rest/api/2/search?jql=project = PROJ&fields=summary").
Proof.
  split; [|split].
  - destruct (proj1 (request_targets (stubEnv 201 (Ok JNull))
                       (NewJiraClient (stubEnv 201 (Ok JNull)) cloudConfig))
                (sampleCreate cloudConfig)) as [Hsends Hform].
    destruct (Hsends eq_refl) as [req Hreq]. exists req.
    assert (Hin : req ∈ (createIssue (stubEnv 201 (Ok JNull))
                           (NewJiraClient (stubEnv 201 (Ok JNull)) cloudConfig)
                           (sampleCreate cloudConfig)).1)
      by (rewrite Hreq; apply list_elem_of_here).
    destruct (Hform req Hin) as (Hm & Hu & _). now split.
  - destruct (proj1 (proj2 (request_targets (stubEnv 204 (Ok JNull))
                              (NewJiraClient (stubEnv 204 (Ok JNull)) dataCenterConfig)))
                (sampleUpdate dataCenterConfig)) as [Hsends Hform].
    destruct (Hsends eq_refl) as [req Hreq]. exists req.
    assert (Hin : req ∈ (updateIssue (stubEnv 204 (Ok JNull))
                           (NewJiraClient (stubEnv 204 (Ok JNull)) dataCenterConfig)
                           (sampleUpdate dataCenterConfig)).1)
      by (rewrite Hreq; apply list_elem_of_here).
    destruct (Hform req Hin) as (Hm & Hu & _). now split.
  - destruct (proj2 (proj2 (request_targets (stubEnv 200 (Ok JNull))
                              (NewJiraClient (stubEnv 200 (Ok JNull)) dataCenterConfig)))
                (sampleSearch dataCenterConfig)) as [Hsends Hform].
    destruct (Hsends eq_refl) as [req Hreq]. exists req.
    assert (Hin : req ∈ (searchIssues (stubEnv 200 (Ok JNull))
                           (NewJiraClient (stubEnv 200 (Ok JNull)) dataCenterConfig)
                           (sampleSearch dataCenterConfig)).1)
      by (rewrite Hreq; apply list_elem_of_here).
    destruct (Hform req Hin) as (Hm & Hu & _). now split.
Defined.

(** X16: the handlers reach the network only through a client with the
    timeout of ten seconds: two networks that agree on the calls with this
    timeout give the three handlers the same requests and results. *)
Theorem handlers_use_ten_second_timeout (env : Env)
    (rt : Z → http.Request → result http.Response) :
  (∀ req, rt 10000000000 req = roundTrip env 10000000000 req) →
  (∀ args, create_issue (withRoundTrip env rt) args = create_issue env args)
  ∧ (∀ args, update_issue (withRoundTrip env rt) args = update_issue env args)
  ∧ (∀ args, search_issues (withRoundTrip env rt) args = search_issues env args).
Proof.
  intros Hrt. split; [|split]; intros args.
  - unfold create_issue, createIssue, Do, NewRequest, Marshal, NewJiraClient, withRoundTrip.
    cbn [roundTrip newRequestError mapLower writeJSON httpClient http.Timeout isCloud config].
    change (10 * Second) with 10000000000.
    destruct (newRequestError env _ _); [reflexivity|]. now rewrite Hrt.
  - unfold update_issue, updateIssue, Do, NewRequest, Marshal, NewJiraClient, withRoundTrip.
    cbn [roundTrip newRequestError mapLower writeJSON httpClient http.Timeout isCloud config].
    change (10 * Second) with 10000000000.
    destruct (newRequestError env _ _); [reflexivity|]. now rewrite Hrt.
  - unfold search_issues, searchIssues, Do, NewRequest, Marshal, NewJiraClient, withRoundTrip.
    cbn [roundTrip newRequestError mapLower writeJSON httpClient http.Timeout isCloud config].
    change (10 * Second) with 10000000000.
    destruct (newRequestError env _ _); [reflexivity|]. now rewrite Hrt.
Qed.

Lemma handlers_use_ten_second_timeout_witness :
  update_issue
    (withRoundTrip (stubEnv 204 (Err "EOF"))
       (λ timeout req, if timeout =? 10000000000
                       then roundTrip (stubEnv 204 (Err "EOF")) timeout req
                       else Err "not reached"))
    (sampleUpdate dataCenterConfig)
  = update_issue (stubEnv 204 (Err "EOF")) (sampleUpdate dataCenterConfig).
Proof.
  exact (proj1 (proj2 (handlers_use_ten_second_timeout (stubEnv 204 (Err "EOF"))
                         (λ timeout req, if timeout =? 10000000000
                                         then roundTrip (stubEnv 204 (Err "EOF")) timeout req
                                         else Err "not reached")
                         (λ req, eq_refl)))
           (sampleUpdate dataCenterConfig)).
Defined.

(** ** Further properties: what the credentials and the URL influence *)



(** X6: on a Data Center URL the e-mail address is not used at all: the
    three handlers send the same requests and return the same results
    whatever e-mail address the configuration carries. *)
Theorem data_center_ignores_email (env : Env) (url key email1 email2 : string) :
  isCloud (NewJiraClient env
             {| JiraConfig.URL := url; JiraConfig.APIKey := key;
                JiraConfig.Email := email1 |}) = false →
  (∀ projectKey summary description issueType,
     create_issue env
       {| CreateIssueArgs.JiraConfig :=
            {| JiraConfig.URL := url; JiraConfig.APIKey := key; JiraConfig.Email := email1 |};
          CreateIssueArgs.ProjectKey := projectKey; CreateIssueArgs.Summary := summary;
          CreateIssueArgs.Description := description;
          CreateIssueArgs.IssueType := issueType |}
     = create_issue env
       {| CreateIssueArgs.JiraConfig :=
            {| JiraConfig.URL := url; JiraConfig.APIKey := key; JiraConfig.Email := email2 |};
          CreateIssueArgs.ProjectKey := projectKey; CreateIssueArgs.Summary := summary;
          CreateIssueArgs.Description := description;
          CreateIssueArgs.IssueType := issueType |})
  ∧ (∀ issueKey summary description,
     update_issue env
       {| UpdateIssueArgs.JiraConfig :=
            {| JiraConfig.URL := url; JiraConfig.APIKey := key; JiraConfig.Email := email1 |};
          UpdateIssueArgs.IssueKey := issueKey; UpdateIssueArgs.Summary := summary;
          UpdateIssueArgs.Description := description |}
     = update_issue env
       {| UpdateIssueArgs.JiraConfig :=
            {| JiraConfig.URL := url; JiraConfig.APIKey := key; JiraConfig.Email := email2 |};
          UpdateIssueArgs.IssueKey := issueKey; UpdateIssueArgs.Summary := summary;
          UpdateIssueArgs.Description := description |})
  ∧ (∀ jql,
     search_issues env
       {| SearchIssuesArgs.JiraConfig :=
            {| JiraConfig.URL := url; JiraConfig.APIKey := key; JiraConfig.Email := email1 |};
          SearchIssuesArgs.JQL := jql |}
     = search_issues env
       {| SearchIssuesArgs.JiraConfig :=
            {| JiraConfig.URL := url; JiraConfig.APIKey := key; JiraConfig.Email := email2 |};
          SearchIssuesArgs.JQL := jql |}).
Proof.
  intros Hdc. rewrite isCloud_NewJiraClient in Hdc. cbn [JiraConfig.URL] in Hdc.
  split; [|split]; intros.
  - unfold create_issue, createIssue, getBaseAPIPath, NewJiraClient.
    cbn [isCloud config httpClient JiraConfig.URL JiraConfig.APIKey
         CreateIssueArgs.JiraConfig].
    now rewrite Hdc.
  - unfold update_issue, updateIssue, getBaseAPIPath, NewJiraClient.
    cbn [isCloud config httpClient JiraConfig.URL JiraConfig.APIKey
         UpdateIssueArgs.JiraConfig].
    now rewrite Hdc.
  - unfold search_issues, searchIssues, getBaseAPIPath, NewJiraClient.
    cbn [isCloud config httpClient JiraConfig.URL JiraConfig.APIKey
         SearchIssuesArgs.JiraConfig].
    now rewrite Hdc.
Qed.

Lemma data_center_ignores_email_witness :
  search_issues (stubEnv 200 (Ok (searchDocument [])))
    {| SearchIssuesArgs.JiraConfig :=
         {| JiraConfig.URL := "https://jira.example.com"; JiraConfig.APIKey := "token";
            JiraConfig.Email := "" |};
       SearchIssuesArgs.JQL := "project = PROJ" |}
  = search_issues (stubEnv 200 (Ok (searchDocument [])))
    {| SearchIssuesArgs.JiraConfig :=
         {| JiraConfig.URL := "https://jira.example.com"; JiraConfig.APIKey := "token";
            JiraConfig.Email := "dev@example.com" |};
       SearchIssuesArgs.JQL := "project = PROJ" |}.
Proof.
  exact (proj2 (proj2 (data_center_ignores_email (stubEnv 200 (Ok (searchDocument [])))
                         "https://jira.example.com" "token" "" "dev@example.com" eq_refl))
           "project = PROJ").
Defined.

(** X7: the resolution does not look at the letter case of an ASCII URL:
    two configurations whose URLs differ in case only resolve alike. *)
Theorem variant_ignores_case (env : Env) (cfg1 cfg2 : JiraConfig.t) :
  strings.isASCII (JiraConfig.URL cfg1) = true →
  strings.isASCII (JiraConfig.URL cfg2) = true →
  strings.lowerASCII (JiraConfig.URL cfg1) = strings.lowerASCII (JiraConfig.URL cfg2) →
  isCloud (NewJiraClient env cfg1) = isCloud (NewJiraClient env cfg2).
Proof.
  intros H1 H2 Hlow. rewrite !isCloud_NewJiraClient.
  now rewrite (ToLower_ASCII _ _ H1), (ToLower_ASCII _ _ H2), Hlow.
Qed.

Lemma variant_ignores_case_witness :
  isCloud (NewJiraClient (stubEnv 200 (Ok JNull)) cloudConfig)
  = isCloud (NewJiraClient (stubEnv 200 (Ok JNull))
               {| JiraConfig.URL := "HTTPS://ACME.atlassian.net";
                  JiraConfig.APIKey := "token";
                  JiraConfig.Email := "dev@example.com" |}).
Proof.
  exact (variant_ignores_case (stubEnv 200 (Ok JNull)) cloudConfig
           {| JiraConfig.URL := "HTTPS://ACME.atlassian.net";
              JiraConfig.APIKey := "token";
              JiraConfig.Email := "dev@example.com" |} eq_refl eq_refl eq_refl).
Defined.

(** ** Further properties: the answers of the handlers *)

Lemma toJSON_views (l : list (string * string)) :
  json_.toJSON (VSlice (map (λ m : gmap string string, VMap (VString <$> m))
                          (map issueView l)))
  = JArr (map viewDocument l).
Proof.
  cbn [json_.toJSON]. f_equal. rewrite !map_map.
  apply map_ext. intros [k s]. reflexivity.
Qed.

(** X8: a handler succeeds exactly when its client operation does.  The
    text of create_issue is "Created issue: " followed by the key the
    upstream returned; the text of update_issue is "Updated issue: " followed
    by the key given in the arguments, whatever the upstream answered; the
    text of search_issues is the marshalled list the operation returned. *)
Theorem handler_success_text (env : Env) :
  (∀ args r,
     (create_issue env args).2 = Ok r
     ↔ ∃ issueKey,
         (createIssue env (NewJiraClient env (CreateIssueArgs.JiraConfig args)) args).2
         = Ok issueKey
         ∧ r = mcp_golang.NewToolResponse
                 [mcp_golang.NewTextContent ("Created issue: " +:+ issueKey)])
  ∧ (∀ args r,
     (update_issue env args).2 = Ok r
     ↔ is_ok (updateIssue env (NewJiraClient env (UpdateIssueArgs.JiraConfig args)) args).2
       = true
       ∧ r = mcp_golang.NewToolResponse
               [mcp_golang.NewTextContent
                  ("Updated issue: " +:+ UpdateIssueArgs.IssueKey args)])
  ∧ (∀ args r,
     (search_issues env args).2 = Ok r
     ↔ ∃ issues,
         (searchIssues env (NewJiraClient env (SearchIssuesArgs.JiraConfig args)) args).2
         = Ok issues
         ∧ r = mcp_golang.NewToolResponse
                 [mcp_golang.NewTextContent
                    (writeJSON env
                       (json_.toJSON
                          (VSlice (map (λ m : gmap string string, VMap (VString <$> m))
                                     issues))))]).
Proof.
  split; [|split]; intros args r.
  - unfold create_issue. destruct (createIssue _ _ _) as [sent [k|e]]; simpl.
    + split; [intros [= <-]; eauto | now intros (k' & [= <-] & ->)].
    + split; [discriminate | now intros (k' & [=] & _)].
  - unfold update_issue, updateIssue, Marshal, NewRequest, Do.
    destruct (newRequestError env _ _); simpl.
    { split; [discriminate | now intros [[=] _]]. }
    destruct (roundTrip env _ _) as [resp|e]; simpl.
    2:{ split; [discriminate | now intros [[=] _]]. }
    destruct (_ && _); simpl.
    + split; [discriminate | now intros [[=] _]].
    + split; [now intros [= <-] | now intros [_ ->]].
  - unfold search_issues. destruct (searchIssues _ _ _) as [sent [l|e]]; simpl.
    + split; [intros [= <-]; eauto | now intros (l' & [= <-] & ->)].
    + split; [discriminate | now intros (l' & [=] & _)].
Qed.

Lemma handler_success_text_witness :
  (update_issue (stubEnv 204 (Err "EOF")) (sampleUpdate dataCenterConfig)).2
  = Ok (mcp_golang.NewToolResponse [mcp_golang.NewTextContent "Updated issue: PROJ-7"]).
Proof.
  exact (proj2 (proj1 (proj2 (handler_success_text (stubEnv 204 (Err "EOF"))))
                  (sampleUpdate dataCenterConfig) _)
           (conj eq_refl eq_refl)).
Defined.

(** X9: against an upstream that answers 200 with a document listing issues
    by key and summary, the search_issues handler returns one text: the
    JSON array of the {key, summary} objects of these issues, in order.  For
    an empty list this is the empty array, not null. *)
Theorem search_issues_text (env : Env) (args : SearchIssuesArgs.t)
    (req : http.Request) (resp : http.Response) (l : list (string * string)) :
  (search_issues env args).1 = [req] →
  roundTrip env (10 * Second) req = Ok resp →
  http.StatusCode resp = 200 →
  readJSON env (http.RespBody resp) = Ok (searchDocument l) →
  (search_issues env args).2
  = Ok (mcp_golang.NewToolResponse
          [mcp_golang.NewTextContent (writeJSON env (JArr (map viewDocument l)))]).
Proof.
  intros Hsent Hrt H200 Hread. unfold search_issues in *.
  set (c := NewJiraClient env (SearchIssuesArgs.JiraConfig args)) in *.
  pose proof (searchIssues_answered env c args req resp) as Hans.
  destruct (searchIssues env c args) as [sent r]. simpl in *.
  rewrite (Hans Hsent Hrt). rewrite H200. simpl.
  unfold Decode. rewrite Hread, decode_searchDocument. cbn [SearchResult.Issues].
  unfold mustMarshal, Marshal. do 4 f_equal.
  rewrite <- toJSON_views. do 2 f_equal.
  rewrite !map_map. reflexivity.
Qed.

Lemma search_issues_text_witness :
  (search_issues (stubEnv 200 (Ok (searchDocument [("A-1", "S1")])))
     (sampleSearch dataCenterConfig)).2
  = Ok (mcp_golang.NewToolResponse [mcp_golang.NewTextContent ""]).
Proof.
  exact (search_issues_text (stubEnv 200 (Ok (searchDocument [("A-1", "S1")])))
           (sampleSearch dataCenterConfig) _
           {| http.StatusCode := 200; http.RespBody := "" |} [("A-1", "S1")]
           eq_refl eq_refl eq_refl eq_refl).
Defined.

(** ** Further properties: what the search decoder accepts *)

Lemma storeMembers_err {S} (field : S → string → json → result S) (err : string)
    (ms : list (string * json)) :
  storeMembers field (Err err) ms = Err err.
Proof. induction ms as [|kv ms IH]; [reflexivity | exact IH]. Qed.

(** Members that [field] skips, and values rewritten by a [g] that [field]
    does not tell apart, leave the loop's result as it is. *)
Lemma storeMembers_prune {S} (field : S → string → json → result S)
    (p : string * json → bool) (g : string * json → string * json)
    (acc : result S) (ms : list (string * json)) :
  (∀ st kv, p kv = false → field st (fst kv) (snd kv) = Ok st) →
  (∀ st kv, field st (fst (g kv)) (snd (g kv)) = field st (fst kv) (snd kv)) →
  storeMembers field acc (map g (List.filter p ms)) = storeMembers field acc ms.
Proof.
  intros Hskip Hg. revert acc. induction ms as [|kv ms IH]; intros acc; [reflexivity|].
  cbn [List.filter]. destruct (p kv) eqn:Hp.
  - cbn [map storeMembers foldl]. destruct acc as [st|err].
    + rewrite Hg. apply IH.
    + apply IH.
  - cbn [storeMembers foldl]. destruct acc as [st|err].
    + rewrite (Hskip st kv Hp). apply IH.
    + apply IH.
Qed.

Lemma decode_pruneFields (env : Env) (st : SearchResult.fields) (v : json) :
  decodeStruct env (storeFields env) "struct" st (pruneFields v)
  = decodeStruct env (storeFields env) "struct" st v.
Proof.
  destruct v as [| | | | |ms]; try reflexivity.
  cbn [pruneFields decodeStruct]. rewrite <- (map_id (List.filter _ ms)).
  apply (storeMembers_prune (storeFields env)
           (λ kv, json_.matchField "summary" (fst kv)) (λ kv, kv)).
  - intros st' kv Hp. unfold storeFields. now rewrite Hp.
  - reflexivity.
Qed.

Lemma decode_pruneIssue (env : Env) (st : SearchResult.issue) (e : json) :
  decodeStruct env (storeIssue env) "struct" st (pruneIssue e)
  = decodeStruct env (storeIssue env) "struct" st e.
Proof.
  destruct e as [| | | | |ms]; try reflexivity.
  cbn [pruneIssue decodeStruct].
  apply (storeMembers_prune (storeIssue env) selectsIssueField).
  - intros st' kv [Hk Hf]%orb_false_iff. unfold storeIssue. now rewrite Hk, Hf.
  - intros st' [k v]. cbn [fst snd]. destruct (json_.matchField "key" k) eqn:Hk; [reflexivity|].
    cbn [fst snd]. unfold storeIssue. rewrite Hk.
    destruct (json_.matchField "fields" k); [|reflexivity].
    now rewrite decode_pruneFields.
Qed.

Lemma decodeElems_ext {A} (elem : A → json → result A) (zero : A) (g : json → json)
    (mem : list A) (l : list json) :
  (∀ a j, elem a (g j) = elem a j) →
  decodeElems elem zero mem (map g l) = decodeElems elem zero mem l.
Proof.
  intros Hg. revert mem. induction l as [|j l IH]; intros mem; [reflexivity|].
  cbn [map decodeElems]. now rewrite Hg, IH.
Qed.

Lemma decodeSlice_ext (env : Env) {A} (elem : A → json → result A) (zero : A)
    (goType : string) (g : json → json) (mem : list A) (elems : list json) :
  (∀ a j, elem a (g j) = elem a j) →
  decodeSlice env elem zero goType mem (JArr (map g elems))
  = decodeSlice env elem zero goType mem (JArr elems).
Proof.
  intros Hg. destruct elems as [|j elems]; [reflexivity|].
  change (map g (j :: elems)) with (g j :: map g elems). cbn [decodeSlice].
  change (g j :: map g elems) with (map g (j :: elems)).
  now rewrite (decodeElems_ext elem zero g mem (j :: elems) Hg), length_map.
Qed.

Lemma decode_pruneSearch (env : Env) (j : json) :
  decodeSearchResult env (pruneSearch j) = decodeSearchResult env j.
Proof.
  destruct j as [| | | | |ms]; try reflexivity.
  unfold decodeSearchResult. cbn [pruneSearch decodeStruct].
  assert (Hsame :
    storeMembers (storeResult env) (Ok (SearchResult.zero, []))
      (map (λ kv, (fst kv, pruneIssues (snd kv)))
         (List.filter (λ kv, json_.matchField "issues" (fst kv)) ms))
    = storeMembers (storeResult env) (Ok (SearchResult.zero, [])) ms).
  { apply (storeMembers_prune (storeResult env)
             (λ kv, json_.matchField "issues" (fst kv))).
    - intros st kv Hp. unfold storeResult. now rewrite Hp.
    - intros st [k v]. cbn [fst snd]. unfold storeResult.
      destruct (json_.matchField "issues" k); [|reflexivity].
      destruct v as [| | | |elems|]; try reflexivity.
      cbn [pruneIssues].
      now rewrite (decodeSlice_ext env _ _ _ pruneIssue _ elems
                     (λ a j, decode_pruneIssue env a j)). }
  unfold storeMembers in Hsame. now rewrite Hsame.
Qed.

(** X10: members the decoder has no field for do not matter.  Against a 200
    answer whose document, once the members other than "issues", "key",
    "fields" and "summary" are left out at their levels, lists issues by key
    and summary, the search returns exactly these pairs. *)
Theorem search_ignores_other_members (env : Env) (c : JiraClient)
    (args : SearchIssuesArgs.t) (req : http.Request) (resp : http.Response)
    (j : json) (l : list (string * string)) :
  (searchIssues env c args).1 = [req] →
  roundTrip env (http.Timeout (httpClient c)) req = Ok resp →
  http.StatusCode resp = 200 →
  readJSON env (http.RespBody resp) = Ok j →
  pruneSearch j = searchDocument l →
  (searchIssues env c args).2 = Ok (map issueView l).
Proof.
  intros Hsent Hrt H200 Hread Hprune.
  rewrite (searchIssues_answered _ _ _ _ _ Hsent Hrt), H200. cbn [Z.eqb Pos.eqb negb].
  unfold Decode. rewrite Hread, <- decode_pruneSearch, Hprune, decode_searchDocument.
  cbn [SearchResult.Issues]. rewrite map_map. reflexivity.
Qed.

Lemma search_ignores_other_members_witness :
  (searchIssues (stubEnv 200 (Ok jiraSearchAnswer))
     (NewJiraClient (stubEnv 200 (Ok jiraSearchAnswer)) dataCenterConfig)
     (sampleSearch dataCenterConfig)).2
  = Ok [issueView ("A-1", "S1")].
Proof.
  exact (search_ignores_other_members (stubEnv 200 (Ok jiraSearchAnswer))
           (NewJiraClient (stubEnv 200 (Ok jiraSearchAnswer)) dataCenterConfig)
           (sampleSearch dataCenterConfig) _
           {| http.StatusCode := 200; http.RespBody := "" |}
           jiraSearchAnswer [("A-1", "S1")] eq_refl eq_refl eq_refl eq_refl eq_refl).
Defined.





Lemma decodeElems_length {A} (elem : A → json → result A) (zero : A) (mem : list A)
    (elems : list json) (l : list A) :
  decodeElems elem zero mem elems = Ok l → length l = length elems.
Proof.
  revert mem l. induction elems as [|e elems IH]; intros mem l; cbn [decodeElems].
  - now intros [= <-].
  - destruct (elem (hd zero mem) e); [|discriminate].
    destruct (decodeElems elem zero (tl mem) elems) as [rest|] eqn:Hrest; [|discriminate].
    intros [= <-]. cbn [length]. now rewrite (IH _ rest Hrest).
Qed.

Lemma decodeSlice_length (env : Env) {A} (elem : A → json → result A) (zero : A)
    (goType : string) (mem : list A) (elems : list json) (l behind : list A) :
  decodeSlice env elem zero goType mem (JArr elems) = Ok (l, behind) →
  length l = length elems.
Proof.
  destruct elems as [|e elems]; cbn [decodeSlice]; [now intros [= <- _]|].
  destruct (decodeElems _ _ _ _) as [l0|] eqn:Hdec; [|discriminate].
  intros [= <- _]. exact (decodeElems_length _ _ _ _ _ Hdec).
Qed.

(** X12: when the document has one "issues" member and it is an array, a
    successful search returns one entry per element of that array. *)
Theorem search_one_entry_per_element (env : Env) (c : JiraClient)
    (args : SearchIssuesArgs.t) (req : http.Request) (resp : http.Response)
    (ms : list (string * json)) (name : string) (elems : list json)
    (issues : list (gmap string string)) :
  (searchIssues env c args).1 = [req] →
  roundTrip env (http.Timeout (httpClient c)) req = Ok resp →
  readJSON env (http.RespBody resp) = Ok (JObj ms) →
  List.filter (λ kv, json_.matchField "issues" (fst kv)) ms = [(name, JArr elems)] →
  (searchIssues env c args).2 = Ok issues →
  length issues = length elems.
Proof.
  intros Hsent Hrt Hread Hone.
  assert (Hname : json_.matchField "issues" name = true).
  { assert (Hin : In (name, JArr elems)
                    (List.filter (λ kv, json_.matchField "issues" (fst kv)) ms))
      by (rewrite Hone; now left).
    now apply filter_In in Hin as [_ Hin]. }
  rewrite (searchIssues_answered _ _ _ _ _ Hsent Hrt).
  destruct (negb _); [discriminate|].
  unfold Decode. rewrite Hread, <- decode_pruneSearch.
  cbn [pruneSearch]. rewrite Hone. unfold decodeSearchResult.
  cbn [map decodeStruct foldl fst snd pruneIssues]. unfold storeResult. rewrite Hname.
  destruct (decodeSlice _ _ _ _ _ _) as [[l0 behind]|] eqn:Hdec; [|discriminate].
  intros [= <-]. cbn [SearchResult.Issues fst].
  apply decodeSlice_length in Hdec. now rewrite length_map, Hdec, length_map.
Qed.

Lemma search_one_entry_per_element_witness :
  length [issueView ("A-1", "S1")] = 1%nat.
Proof.
  exact (search_one_entry_per_element (stubEnv 200 (Ok jiraSearchAnswer))
           (NewJiraClient (stubEnv 200 (Ok jiraSearchAnswer)) dataCenterConfig)
           (sampleSearch dataCenterConfig) _
           {| http.StatusCode := 200; http.RespBody := "" |} _ "issues" _
           [issueView ("A-1", "S1")] eq_refl eq_refl eq_refl eq_refl eq_refl).
Defined.

Lemma storeMembers_fails {S} (field : S → string → json → result S)
    (bad : string * json → bool) (acc : result S) (ms : list (string * json)) :
  (∀ st kv, bad kv = true → is_ok (field st (fst kv) (snd kv)) = false) →
  existsb bad ms = true →
  is_ok (storeMembers field acc ms) = false.
Proof.
  intros Hbad. revert acc. induction ms as [|kv ms IH]; intros acc; [discriminate|].
  cbn [existsb storeMembers foldl]. destruct acc as [st|err].
  2:{ intros _. fold (storeMembers field (Err err) ms). now rewrite storeMembers_err. }
  destruct (bad kv) eqn:Hkv.
  - intros _. specialize (Hbad st kv Hkv).
    destruct (field st (fst kv) (snd kv)) as [|err]; [discriminate|].
    fold (storeMembers field (Err err) ms). now rewrite storeMembers_err.
  - cbn [orb]. apply IH.
Qed.

Lemma decodeElems_fails {A} (elem : A → json → result A) (zero : A)
    (bad : json → bool) (mem : list A) (elems : list json) :
  (∀ a e, bad e = true → is_ok (elem a e) = false) →
  existsb bad elems = true →
  is_ok (decodeElems elem zero mem elems) = false.
Proof.
  intros Hbad. revert mem. induction elems as [|e elems IH]; intros mem; [discriminate|].
  cbn [existsb decodeElems]. destruct (bad e) eqn:He.
  - intros _. specialize (Hbad (hd zero mem) e He). now destruct (elem (hd zero mem) e).
  - cbn [orb]. intros Hrest. destruct (elem (hd zero mem) e); [|reflexivity].
    specialize (IH (tl mem) Hrest). now destruct (decodeElems elem zero (tl mem) elems).
Qed.

(** X13: the search is all or nothing: if one issue of the array has a
    "key" that is not a string (a number, say), the operation returns a
    decoding error and no list, whatever the other issues are. *)
Theorem search_all_or_nothing (env : Env) (c : JiraClient) (args : SearchIssuesArgs.t)
    (req : http.Request) (resp : http.Response) (elems : list json) :
  (searchIssues env c args).1 = [req] →
  roundTrip env (http.Timeout (httpClient c)) req = Ok resp →
  http.StatusCode resp = 200 →
  readJSON env (http.RespBody resp) = Ok (JObj [("issues", JArr elems)]) →
  existsb badKeyIssue elems = true →
  ∃ err, (searchIssues env c args).2 = Err ("failed to decode response: " +:+ err).
Proof.
  intros Hsent Hrt H200 Hread Hbad.
  rewrite (searchIssues_answered _ _ _ _ _ Hsent Hrt), H200. cbn [Z.eqb Pos.eqb negb].
  unfold Decode, decodeSearchResult. rewrite Hread.
  cbn [decodeStruct foldl fst snd]. unfold storeResult.
  replace (json_.matchField "issues" "issues") with true by reflexivity.
  cbn [SearchResult.Issues SearchResult.zero app fst snd].
  destruct elems as [|e0 elems]; [discriminate|].
  cbn [decodeSlice].
  assert (Hfail : is_ok (decodeElems
            (decodeStruct env (storeIssue env) "struct") SearchResult.zeroIssue []
            (e0 :: elems)) = false).
  { apply (decodeElems_fails _ _ badKeyIssue); [|exact Hbad].
    intros a [| | | | |ms]; try discriminate. cbn [badKeyIssue decodeStruct]. intros Hms.
    apply (storeMembers_fails (storeIssue env)
             (λ kv, json_.matchField "key" (fst kv) && notStringOrNull (snd kv)));
      [|exact Hms].
    intros st [k v] [Hk Hv]%andb_true_iff. cbn [fst snd] in *.
    unfold storeIssue. rewrite Hk. now destruct v. }
  destruct (decodeElems _ _ _ _) as [|err]; [discriminate|]. now exists err.
Qed.

Lemma search_all_or_nothing_witness :
  ∃ err,
    (searchIssues
       (stubEnv 200 (Ok (JObj [("issues", JArr [JObj [("key", JStr "A-1")];
                                                JObj [("key", JNum "7")]])])))
       (NewJiraClient (stubEnv 200 (Ok JNull)) dataCenterConfig)
       (sampleSearch dataCenterConfig)).2
    = Err ("failed to decode response: " +:+ err).
Proof.
  exact (search_all_or_nothing
           (stubEnv 200 (Ok (JObj [("issues", JArr [JObj [("key", JStr "A-1")];
                                                    JObj [("key", JNum "7")]])])))
           (NewJiraClient (stubEnv 200 (Ok JNull)) dataCenterConfig)
           (sampleSearch dataCenterConfig) _
           {| http.StatusCode := 200; http.RespBody := "" |}
           [JObj [("key", JStr "A-1")]; JObj [("key", JNum "7")]]
           eq_refl eq_refl eq_refl eq_refl eq_refl).
Defined.

(** X14: a 201 or 200 answer whose document is not an object (an array, a
    string, a number, a boolean) is a decoding error for create and for
    search; the document [null], and "issues" set to [null], give the search
    an empty list. *)
Theorem non_object_answers (env : Env) (c : JiraClient) (req : http.Request)
    (resp : http.Response) (j : json) :
  roundTrip env (http.Timeout (httpClient c)) req = Ok resp →
  readJSON env (http.RespBody resp) = Ok j →
  (∀ args, (createIssue env c args).1 = [req] → http.StatusCode resp = 201 →
     notObjectOrNull j = true →
     (createIssue env c args).2
     = Err ("failed to decode response: " +:+ typeError env j "map[string]interface {}"))
  ∧ (∀ args, (searchIssues env c args).1 = [req] → http.StatusCode resp = 200 →
     notObjectOrNull j = true →
     (searchIssues env c args).2
     = Err ("failed to decode response: " +:+ typeError env j "struct"))
  ∧ (∀ args, (searchIssues env c args).1 = [req] → http.StatusCode resp = 200 →
     j = JNull ∨ j = JObj [("issues", JNull)] →
     (searchIssues env c args).2 = Ok []).
Proof.
  intros Hrt Hread. split; [|split]; intros args Hsent Hstatus Hj.
  - rewrite (createIssue_answered _ _ _ _ _ Hsent Hrt), Hstatus. cbn [Z.eqb Pos.eqb negb].
    unfold Decode. rewrite Hread. now destruct j.
  - rewrite (searchIssues_answered _ _ _ _ _ Hsent Hrt), Hstatus. cbn [Z.eqb Pos.eqb negb].
    unfold Decode. rewrite Hread. now destruct j.
  - rewrite (searchIssues_answered _ _ _ _ _ Hsent Hrt), Hstatus. cbn [Z.eqb Pos.eqb negb].
    unfold Decode. rewrite Hread. now destruct Hj as [-> | ->].
Qed.

Lemma non_object_answers_witness :
  (createIssue (stubEnv 201 (Ok (JArr [])))
     (NewJiraClient (stubEnv 201 (Ok JNull)) cloudConfig) (sampleCreate cloudConfig)).2
  = Err "failed to decode response: json: cannot unmarshal".
Proof.
  exact (proj1 (non_object_answers (stubEnv 201 (Ok (JArr [])))
                  (NewJiraClient (stubEnv 201 (Ok JNull)) cloudConfig) _
                  {| http.StatusCode := 201; http.RespBody := "" |} (JArr [])
                  eq_refl eq_refl)
           (sampleCreate cloudConfig) eq_refl eq_refl eq_refl).
Defined.

(** ** Further properties: the objects [json.Marshal] writes *)

Lemma insertMember_perm (kv : string * json) (l : list (string * json)) :
  json_.insertMember kv l ≡ₚ kv :: l.
Proof.
  induction l as [|x l IH]; [reflexivity|].
  cbn [json_.insertMember]. destruct (String.leb (fst kv) (fst x)); [reflexivity|].
  rewrite IH. apply Permutation_swap.
Qed.

Lemma sortMembers_perm (l : list (string * json)) : json_.sortMembers l ≡ₚ l.
Proof.
  induction l as [|x l IH]; [reflexivity|].
  unfold json_.sortMembers in *. cbn [foldr]. now rewrite insertMember_perm, IH.
Qed.

Lemma insertMember_sorted (kv : string * json) (l : list (string * json)) :
  Sorted keyLe l → Sorted keyLe (json_.insertMember kv l).
Proof.
  induction l as [|x l IH]; intros Hs; cbn [json_.insertMember].
  - repeat constructor.
  - destruct (String.leb (fst kv) (fst x)) eqn:Hle.
    + constructor; [exact Hs|]. constructor. unfold keyLe, String.le. now rewrite Hle.
    + apply Sorted_inv in Hs as [Hs Hhd]. constructor; [now apply IH|].
      assert (Hx : keyLe x kv).
      { unfold keyLe. destruct (String.le_total (fst x) (fst kv)) as [H|H]; [exact H|].
        unfold String.le in H. rewrite Hle in H. contradiction. }
      destruct l as [|y l]; cbn [json_.insertMember].
      * now constructor.
      * destruct (String.leb (fst kv) (fst y)); constructor; [exact Hx|].
        now apply HdRel_inv in Hhd.
Qed.

Lemma sortMembers_sorted (l : list (string * json)) : Sorted keyLe (json_.sortMembers l).
Proof.
  induction l as [|x l IH]; [constructor|].
  unfold json_.sortMembers in *. cbn [foldr]. now apply insertMember_sorted.
Qed.

Lemma lastMember_NoDup (name : string) (v : json) (ms : list (string * json)) :
  NoDup ms.*1 → (lastMember name ms = Some v ↔ (name, v) ∈ ms).
Proof.
  revert v. induction ms as [|[k w] ms IH]; intros v;
    cbn [lastMember fmap list_fmap fst snd].
  - intros _. split; [discriminate | intros H; inversion H].
  - intros [Hk Hnd]%NoDup_cons.
    assert (IH' : ∀ u, lastMember name ms = Some u ↔ (name, u) ∈ ms)
      by (intros u; now apply IH).
    assert (Hfresh : ∀ u, (k, u) ∉ ms).
    { intros u Hin. apply Hk. apply list_elem_of_fmap. now exists (k, u). }
    destruct (lastMember name ms) as [u|] eqn:Hlast.
    + assert (Hin : (name, u) ∈ ms) by now apply IH'.
      split.
      * intros [= ->]. now right.
      * intros [[= -> ->] | Hin']%elem_of_cons.
        -- now destruct (Hfresh u).
        -- apply IH' in Hin'. congruence.
    + split.
      * destruct (String.eqb_spec k name) as [->|Hne]; [|discriminate].
        intros [= ->]. now left.
      * intros [[= -> ->] | Hin']%elem_of_cons.
        -- now rewrite String.eqb_refl.
        -- apply IH' in Hin'. discriminate.
Qed.

(** X15: the object written for a Go map has the entries of the map and no
    other member, each name once, in ascending order of the names; so
    reading a name back from the object gives the value the map holds. *)
Theorem marshal_map (m : gmap string value) :
  ∃ ms, json_.toJSON (VMap m) = JObj ms
        ∧ Sorted keyLe ms
        ∧ NoDup ms.*1
        ∧ ∀ name, lastMember name ms = json_.toJSON <$> (m !! name).
Proof.
  exists (json_.sortMembers (map_to_list (json_.toJSON <$> m))).
  split; [reflexivity|]. split; [apply sortMembers_sorted|].
  assert (Hnd : NoDup (json_.sortMembers (map_to_list (json_.toJSON <$> m))).*1).
  { rewrite sortMembers_perm. apply NoDup_fst_map_to_list. }
  split; [exact Hnd|]. intros name.
  destruct (lastMember name _) as [v|] eqn:Hlast.
  - apply (lastMember_NoDup _ _ _ Hnd) in Hlast.
    rewrite sortMembers_perm in Hlast. apply elem_of_map_to_list in Hlast.
    rewrite lookup_fmap in Hlast. now rewrite <- Hlast.
  - rewrite <- lookup_fmap.
    destruct ((json_.toJSON <$> m) !! name) as [v|] eqn:Hlook; [|reflexivity].
    apply elem_of_map_to_list in Hlook. rewrite <- sortMembers_perm in Hlook.
    apply (lastMember_NoDup _ _ _ Hnd) in Hlook. congruence.
Qed.

(** ** Further properties: start-up *)

(** X17: [main] starts serving exactly when the resource and the three
    tools were registered without error; the tools registered by then are
    create_issue, update_issue, search_issues, in this order, which are the
    actions the resource "info://server" lists. *)
Theorem main_serves_when_registered (host : Host) (env : Env) :
  (served (main host env).1 = true
   ↔ registerResourceError host "info://server" = None
     ∧ registerToolError host "create_issue" = None
     ∧ registerToolError host "update_issue" = None
     ∧ registerToolError host "search_issues" = None)
  ∧ (served (main host env).1 = true →
     toolNames (main host env).1 = ["create_issue"; "update_issue"; "search_issues"]
     ∧ ∀ u, info_server env u
            = Ok (mcp_golang.NewResourceResponse
                    [mcp_golang.NewTextEmbeddedResource "info://server"
                       (writeJSON env
                          (JObj [("actions", JArr (map JStr (toolNames (main host env).1)));
                                 ("name", JStr ServerName);
                                 ("version", JStr ServerVersion)]))
                       "application/json"])).
Proof.
  unfold main.
  destruct (registerResourceError host _) as [e0|];
    [split; [split; [discriminate | now intros [[=] _]] | discriminate]|].
  destruct (registerToolError host "create_issue") as [e1|];
    [split; [split; [discriminate | now intros (_ & [=] & _)] | discriminate]|].
  destruct (registerToolError host "update_issue") as [e2|];
    [split; [split; [discriminate | now intros (_ & _ & [=] & _)] | discriminate]|].
  destruct (registerToolError host "search_issues") as [e3|];
    [split; [split; [discriminate | now intros (_ & _ & _ & [=])] | discriminate]|].
  split; [split; [now intros _ | reflexivity]|].
  intros _. split; reflexivity.
Qed.

Lemma main_serves_when_registered_witness :
  toolNames (main readyHost (stubEnv 200 (Ok JNull))).1
  = ["create_issue"; "update_issue"; "search_issues"].
Proof.
  exact (proj1 (proj2 (main_serves_when_registered readyHost (stubEnv 200 (Ok JNull)))
                  eq_refl)).
Defined.

(** X18: a registration that fails ends [main] at once with the fatal line
    that names it: what comes after it in the source is not registered, and
    [server.Serve] is not called.  When [main] returns normally, the server
    has been serving and [Serve] returned without error. *)
Theorem main_stops_at_first_failure (host : Host) (env : Env) :
  (∀ err, registerResourceError host "info://server" = Some err →
     (main host env).2 = Fatal ("Error registering server info: " +:+ err)
     ∧ toolNames (main host env).1 = []
     ∧ served (main host env).1 = false)
  ∧ (∀ err, registerResourceError host "info://server" = None →
     registerToolError host "create_issue" = Some err →
     (main host env).2 = Fatal ("Error registering create_issue tool: " +:+ err)
     ∧ toolNames (main host env).1 = ["create_issue"]
     ∧ served (main host env).1 = false)
  ∧ (∀ err, registerResourceError host "info://server" = None →
     registerToolError host "create_issue" = None →
     registerToolError host "update_issue" = Some err →
     (main host env).2 = Fatal ("Error registering update_issue tool: " +:+ err)
     ∧ toolNames (main host env).1 = ["create_issue"; "update_issue"]
     ∧ served (main host env).1 = false)
  ∧ (∀ err, registerResourceError host "info://server" = None →
     registerToolError host "create_issue" = None →
     registerToolError host "update_issue" = None →
     registerToolError host "search_issues" = Some err →
     (main host env).2 = Fatal ("Error registering search_issues tool: " +:+ err)
     ∧ served (main host env).1 = false)
  ∧ ((main host env).2 = Return →
     served (main host env).1 = true ∧ serveError host = None).
Proof.
  unfold main. split; [|split; [|split; [|split]]].
  - intros err ->. repeat split.
  - intros err -> ->. repeat split.
  - intros err -> -> ->. repeat split.
  - intros err -> -> -> ->. repeat split.
  - destruct (registerResourceError host _); [discriminate|].
    destruct (registerToolError host "create_issue"); [discriminate|].
    destruct (registerToolError host "update_issue"); [discriminate|].
    destruct (registerToolError host "search_issues"); [discriminate|].
    cbn [snd]. destruct (serveError host); [discriminate|]. now split.
Qed.

Lemma main_stops_at_first_failure_witness :
  (main refusingHost (stubEnv 200 (Ok JNull))).2
  = Fatal "Error registering update_issue tool: invalid handler"
  ∧ toolNames (main refusingHost (stubEnv 200 (Ok JNull))).1
    = ["create_issue"; "update_issue"]
  ∧ served (main refusingHost (stubEnv 200 (Ok JNull))).1 = false.
Proof.
  exact (proj1 (proj2 (proj2
           (main_stops_at_first_failure refusingHost (stubEnv 200 (Ok JNull)))))
           "invalid handler" eq_refl eq_refl eq_refl).
Defined.

(** X19: the server listens on the port given by the flag [-port], and on
    8080 when the flag is absent: the address handed to the transport is a
    colon followed by that port in decimal, and from the address the port can
    be read back. *)
Theorem main_listens_on_port (host : Host) (env : Env) :
  WithAddr (":" +:+ pretty (default 8080 (portFlag host))) ∈ (main host env).1
  ∧ ∀ port, WithAddr (":" +:+ pretty port) ∈ (main host env).1 →
            port = default 8080 (portFlag host).
Proof.
  assert (Hstart : ∃ rest,
    (main host env).1
    = [Log "Starting Jira MCP Server...";
       Log ("Listening on port: " +:+ pretty (default 8080 (portFlag host)));
       NewHTTPTransport "/mcp";
       WithAddr (":" +:+ pretty (default 8080 (portFlag host)));
       NewServer] ++ rest
    ∧ ∀ addr, WithAddr addr ∉ rest).
  { unfold main.
    assert (Hport : match portFlag host with Some p => p | None => defaultAppPort end
                    = default 8080 (portFlag host)) by now destruct (portFlag host).
    rewrite Hport.
    destruct (registerResourceError host _);
      [|destruct (registerToolError host "create_issue");
        [|destruct (registerToolError host "update_issue");
          [|destruct (registerToolError host "search_issues")]]];
      (eexists; split; [reflexivity|]);
      intros addr Hin; repeat (apply elem_of_cons in Hin as [Hin|Hin]; [discriminate|]);
      inversion Hin. }
  destruct Hstart as (rest & -> & Hrest). split.
  - do 3 right. left.
  - intros port Hin.
    apply elem_of_app in Hin as [Hin|Hin]; [|now destruct (Hrest _ Hin)].
    repeat (apply elem_of_cons in Hin as [Hin|Hin]; [try discriminate|]).
    + injection Hin as Hin. apply String.app_inj in Hin. now apply pretty_Z_inj in Hin.
    + inversion Hin.
Qed.

Lemma main_listens_on_port_witness : 9090 = default 8080 (portFlag readyHost).
Proof.
  exact (proj2 (main_listens_on_port readyHost (stubEnv 200 (Ok JNull))) 9090
           (proj1 (main_listens_on_port readyHost (stubEnv 200 (Ok JNull))))).
Defined.

